(** * qboost_demo.ipynb: the notebook's two functions and two experiments

    The notebook is orchestration code: it builds arrays with numpy, hands
    them to scikit-learn, the qboost package and the D-Wave SDK, and prints
    what comes back.  The embedding keeps that boundary explicit.

    - Everything the notebook computes itself (slicing, label arithmetic,
      [len], the order of the calls, what is passed where) is translated
      into Rocq functions.
    - Every call that leaves the notebook is a [call]; a notebook function
      is a tree of such calls ([py]), and [run] executes a tree against an
      arbitrary behaviour of the libraries, recording the calls made, what
      they answered and what was printed. *)

From stdpp Require Import gmap strings list.
From Stdlib Require Import ZArith QArith.

Local Open Scope string_scope.
Local Open Scope Z_scope.
Local Open Scope list_scope.

(** * Part I: the model *)

(** ** Python values at the library boundary *)

(** A raised exception, identified by the name of its class. *)
Definition exn := string.

(** What evaluating a Python expression gives: a value, or an exception. *)
Inductive outcome (A : Type) : Type :=
| Returned (a : A)
| Raised (e : exn).
Arguments Returned {A} a.
Arguments Raised {A} e.

#[global] Instance outcome_ret : MRet outcome := fun _ a => Returned a.
#[global] Instance outcome_bind : MBind outcome := fun _ _ f m =>
  match m with
  | Returned a => f a
  | Raised e => Raised e
  end.
#[global] Instance outcome_fmap : FMap outcome := fun _ _ f m =>
  match m with
  | Returned a => Returned (f a)
  | Raised e => Raised e
  end.

(** A reference to an object that lives in a library (a sampler, a scaler,
    a classifier).  The notebook only stores and passes such references. *)
Definition obj := nat.

(** A label vector and the array of weights of a boosted ensemble. *)
Definition labels := list Z.
Definition weights := list Z.

(** Arguments of constructors and keyword arguments. *)
Inductive pyval : Type :=
| VStr (s : string)
| VInt (n : Z)
| VBool (b : bool)
| VFloat (q : Q)
| VObj (o : obj)
| VObjs (l : list obj).

(** The classes the notebook instantiates. *)
Inductive cls : Type :=
| DWaveSampler
| EmbeddingComposite
| Imputer
| StandardScaler
| Normalizer
| AdaBoostClassifier
| WeakClassifiers
| RandomForestClassifier
| QBoostClassifier
| QboostPlus.

#[global] Instance cls_eq_dec : EqDecision cls.
Proof. solve_decision. Defined.

(** Operands of [%] formatting and of [print]. *)
Inductive pyarg : Type :=
| AStr (s : string)
| AInt (n : Z)
| AFloat (q : Q)
| AWeights (w : weights).

(** One [print] statement: [print(x)], [print(fmt % args)] (the format is
    kept symbolic, so no float is rendered here) or [print(a, b)]. *)
Inductive printed : Type :=
| Line (a : pyarg)
| Formatted (fmt : string) (args : list pyarg)
| Items (args : list pyarg).

Definition nl : string := String (Ascii.ascii_of_nat 10) EmptyString.
Definition tab : string := String (Ascii.ascii_of_nat 9) EmptyString.

(** Python's [len] on a sequence. *)
Definition len {A} (l : list A) : Z := Z.of_nat (length l).

(** ** Calls, notebook functions and their execution *)

Section Runtime.

(** The numeric type of the entries of a feature matrix (uint8 pixels in
    the first experiment, float64 measurements in the second). *)
Context {feature : Type}.

(** Rows are samples, columns are features. *)
Definition matrix := list (list feature).

(** The calls that leave the notebook, indexed by the type of what they
    return.  A method call names the class of its receiver, which the
    source fixes by the constructor that built it.  The score returned by
    [accuracy_score] is a float64, held as the rational it denotes. *)
Inductive call : Type -> Type :=
| new (c : cls) (args : list pyval) (kwargs : gmap string pyval) : call obj
| fit_transform (c : cls) (self : obj) (X : matrix) : call matrix
| fit (c : cls) (self : obj) (X : matrix) (y : labels)
      (args : list pyval) (kwargs : gmap string pyval) : call unit
| predict (c : cls) (self : obj) (X : matrix) : call labels
| estimator_weights (c : cls) (self : obj) : call weights
| accuracy_score (y y_pred : labels) : call Q.

(** A notebook function: a tree of library calls and prints that ends in a
    return value.  There is no node for catching an exception, because the
    notebook has no [try]. *)
Inductive py (R : Type) : Type :=
| Return (r : R)
| Call {X : Type} (c : call X) (k : X -> py R)
| Output (p : printed) (k : py R).
Arguments Return {R} r.
Arguments Call {R X} c k.
Arguments Output {R} p k.

Fixpoint py_bind_def {A B : Type} (f : A -> py B) (m : py A) : py B :=
  match m with
  | Return a => f a
  | Call c k => Call c (fun x => py_bind_def f (k x))
  | Output p k => Output p (py_bind_def f k)
  end.

(** What an execution leaves behind, oldest first. *)
Inductive event : Type :=
| Called {X : Type} (c : call X) (r : outcome X)
| Printed (p : printed).

Definition trace := list event.

Section Run.

(** The state of everything outside the notebook (library objects, random
    generators, the remote service) and the behaviour of the libraries on
    it.  Both are arbitrary. *)
Context {world : Type}.
Variable lib : forall X : Type, call X -> world -> outcome X * world.

(** Execution: calls are made one after the other, each one returns before
    the next starts, and the first exception ends the execution. *)
Fixpoint run {R : Type} (p : py R) (w : world) : outcome R * world * trace :=
  match p with
  | Return r => (Returned r, w, [])
  | Call c k =>
      match lib _ c w with
      | (Returned x, w') =>
          let '(res, w'', tr) := run (k x) w' in
          (res, w'', Called c (Returned x) :: tr)
      | (Raised e, w') => (Raised e, w', [Called c (Raised e)])
      end
  | Output p k =>
      let '(res, w', tr) := run k w in (res, w', Printed p :: tr)
  end.

End Run.
End Runtime.

Arguments matrix : clear implicits.
Arguments call : clear implicits.
Arguments py : clear implicits.
Arguments event : clear implicits.
Arguments trace : clear implicits.
Arguments Return {feature R} r.
Arguments Call {feature R X} c k.
Arguments Output {feature R} p k.
Arguments Called {feature X} c r.
Arguments Printed {feature} p.

#[global] Instance py_ret {feature} : MRet (py feature) := fun _ r => Return r.
#[global] Instance py_bind {feature} : MBind (py feature) :=
  fun _ _ f m => py_bind_def f m.

(** [do_call c] performs the call and returns its answer. *)
Definition do_call {feature X} (c : call feature X) : py feature X :=
  Call c Return.

(** [print p] is one print statement. *)
Definition print {feature} (p : printed) : py feature unit :=
  Output p (Return tt).

(** ** The notebook's globals and functions *)

(** Cell 4: the API token. *)
Definition sapi_token : string :=
  "CDL8-df1de1d5d76560ee73a82ffca3833a1a444536d3".

(** Cell 8: the endpoint of the remote service. *)
Definition url : string := "https://cloud.dwavesys.com/sapi".

(** The parameters that [train_model] defines for itself. *)
Definition NUM_READS : Z := 1000.
Definition NUM_WEAK_CLASSIFIERS : Z := 30.
Definition TREE_DEPTH : Z := 2.
Definition DW_PARAMS : gmap string pyval :=
  <["num_reads" := VInt NUM_READS]>
  (<["auto_scale" := VBool true]>
  (<["num_spin_reversal_transforms" := VInt 10]>
  (<["postprocess" := VStr "optimization"]> ∅))).

Definition rule : string :=
  "===========================================================================".

Section Functions.
Context {feature : Type}.

(** [metric(y, y_pred)]: [return metrics.accuracy_score(y, y_pred)]. *)
Definition metric (y y_pred : labels) : py feature Q :=
  do_call (accuracy_score y y_pred).

(** [train_model] from the statement that builds the scaler to the
    [return].  Of what comes before, these statements read the sampler
    [emb_sampler] and the five parameters.  [X_train] and [X_test] are
    rebound by the preprocessing, as in the source. *)
Definition train_model_body (emb_sampler : obj)
    (X_train : matrix feature) (y_train : labels)
    (X_test : matrix feature) (y_test : labels) (lmd : Q)
  : py feature (list obj) :=
  scaler ← do_call (new StandardScaler [] ∅);
  normalizer ← do_call (new Normalizer [] ∅);
  X_train ← do_call (fit_transform StandardScaler scaler X_train);
  X_train ← do_call (fit_transform Normalizer normalizer X_train);
  X_test ← do_call (fit_transform StandardScaler scaler X_test);
  X_test ← do_call (fit_transform Normalizer normalizer X_test);
  (* Adaboost *)
  print (Line (AStr (nl +:+ "Adaboost")));;
  clf1 ← do_call (new AdaBoostClassifier []
    (<["n_estimators" := VInt NUM_WEAK_CLASSIFIERS]> ∅));
  do_call (fit AdaBoostClassifier clf1 X_train y_train [] ∅);;
  y_train1 ← do_call (predict AdaBoostClassifier clf1 X_train);
  y_test1 ← do_call (predict AdaBoostClassifier clf1 X_test);
  a ← metric y_train y_train1;
  print (Formatted "accu (train): %5.2f" [AFloat a]);;
  a ← metric y_test y_test1;
  print (Formatted "accu (test): %5.2f" [AFloat a]);;
  (* Ensembles of Decision Tree *)
  print (Line (AStr (nl +:+ "Decision tree")));;
  clf2 ← do_call (new WeakClassifiers []
    (<["n_estimators" := VInt NUM_WEAK_CLASSIFIERS]>
    (<["max_depth" := VInt TREE_DEPTH]> ∅)));
  do_call (fit WeakClassifiers clf2 X_train y_train [] ∅);;
  y_train2 ← do_call (predict WeakClassifiers clf2 X_train);
  y_test2 ← do_call (predict WeakClassifiers clf2 X_test);
  a ← metric y_train y_train2;
  print (Formatted "accu (train): %5.2f" [AFloat a]);;
  a ← metric y_test y_test2;
  print (Formatted "accu (test): %5.2f" [AFloat a]);;
  (* Random forest *)
  print (Line (AStr (nl +:+ "Random Forest")));;
  clf3 ← do_call (new RandomForestClassifier []
    (<["max_depth" := VInt TREE_DEPTH]>
    (<["n_estimators" := VInt NUM_WEAK_CLASSIFIERS]> ∅)));
  do_call (fit RandomForestClassifier clf3 X_train y_train [] ∅);;
  y_train3 ← do_call (predict RandomForestClassifier clf3 X_train);
  y_test3 ← do_call (predict RandomForestClassifier clf3 X_test);
  a ← metric y_train y_train3;
  print (Formatted "accu (train): %5.2f" [AFloat a]);;
  a ← metric y_test y_test3;
  print (Formatted "accu (test): %5.2f" [AFloat a]);;
  (* Qboost *)
  print (Line (AStr (nl +:+ "QBoost")));;
  clf4 ← do_call (new QBoostClassifier []
    (<["n_estimators" := VInt NUM_WEAK_CLASSIFIERS]>
    (<["max_depth" := VInt TREE_DEPTH]> ∅)));
  do_call (fit QBoostClassifier clf4 X_train y_train [VObj emb_sampler]
    (<["lmd" := VFloat lmd]> DW_PARAMS));;
  y_train4 ← do_call (predict QBoostClassifier clf4 X_train);
  y_test4 ← do_call (predict QBoostClassifier clf4 X_test);
  w ← do_call (estimator_weights QBoostClassifier clf4);
  print (Line (AWeights w));;
  a ← metric y_train y_train4;
  print (Formatted "accu (train): %5.2f" [AFloat a]);;
  a ← metric y_test y_test4;
  print (Formatted "accu (test): %5.2f" [AFloat a]);;
  (* QboostPlus *)
  print (Line (AStr (nl +:+ "QBoostPlus")));;
  clf5 ← do_call (new QboostPlus [VObjs [clf1; clf2; clf3; clf4]] ∅);
  do_call (fit QboostPlus clf5 X_train y_train [VObj emb_sampler]
    (<["lmd" := VFloat lmd]> DW_PARAMS));;
  y_train5 ← do_call (predict QboostPlus clf5 X_train);
  y_test5 ← do_call (predict QboostPlus clf5 X_test);
  w ← do_call (estimator_weights QboostPlus clf5);
  print (Line (AWeights w));;
  a ← metric y_train y_train5;
  print (Formatted "accu (train): %5.2f" [AFloat a]);;
  a ← metric y_test y_test5;
  print (Formatted "accu (test): %5.2f" [AFloat a]);;
  (* the comparison table *)
  print (Line (AStr rule));;
  print (Line (AStr ("Method " +:+ tab +:+ " Adaboost " +:+ tab
    +:+ " DecisionTree " +:+ tab +:+ " RandomForest " +:+ tab
    +:+ " Qboost " +:+ tab +:+ " Qboost+")));;
  a1 ← metric y_train y_train1;
  a2 ← metric y_train y_train2;
  a3 ← metric y_train y_train3;
  a4 ← metric y_train y_train4;
  a5 ← metric y_train y_train5;
  print (Formatted ("Train" +:+ tab +:+ " %5.2f " +:+ tab +:+ tab
      +:+ " %5.2f " +:+ tab +:+ tab +:+ " %5.2f " +:+ tab +:+ tab
      +:+ " %5.2f " +:+ tab +:+ tab +:+ " %5.2f")
    [AFloat a1; AFloat a2; AFloat a3; AFloat a4; AFloat a5]);;
  b1 ← metric y_test y_test1;
  b2 ← metric y_test y_test2;
  b3 ← metric y_test y_test3;
  b4 ← metric y_test y_test4;
  b5 ← metric y_test y_test5;
  print (Formatted ("Test" +:+ tab +:+ " %5.2f " +:+ tab +:+ tab
      +:+ " %5.2f " +:+ tab +:+ tab +:+ " %5.2f " +:+ tab +:+ tab
      +:+ " %5.2f " +:+ tab +:+ tab +:+ " %5.2f")
    [AFloat b1; AFloat b2; AFloat b3; AFloat b4; AFloat b5]);;
  print (Line (AStr rule));;
  mret [clf1; clf2; clf3; clf4; clf5].

(** [train_model(X_train, y_train, X_test, y_test, lmd)], statement by
    statement: the sampler, the sizes, the imputer, then the statements of
    [train_model_body]. *)
Definition train_model (X_train : matrix feature) (y_train : labels)
    (X_test : matrix feature) (y_test : labels) (lmd : Q)
  : py feature (list obj) :=
  (* define sampler *)
  dwave_sampler ← do_call (new DWaveSampler []
    (<["token" := VStr sapi_token]> (<["endpoint" := VStr url]> ∅)));
  emb_sampler ← do_call (new EmbeddingComposite [VObj dwave_sampler] ∅);
  let N_train := len X_train in
  let N_test := len X_test in
  print (Line (AStr (nl +:+ "======================================")));;
  print (Formatted "Train size: %d, Test size: %d" [AInt N_train; AInt N_test]);;
  print (Items [AStr "Num weak classifiers:"; AInt NUM_WEAK_CLASSIFIERS]);;
  (* Preprocessing data *)
  imputer ← do_call (new Imputer [] ∅);
  train_model_body emb_sampler X_train y_train X_test y_test lmd.

End Functions.

(** ** The two experiments *)

(** numpy's arithmetic on an int64 array wraps around. *)
Definition int64 (z : Z) : Z := (z + 2 ^ 63) mod 2 ^ 64 - 2 ^ 63.

(** [a[idx]] with an index array: the rows of [a] at the positions of
    [idx], in the order of [idx]; an index out of range raises. *)
Definition take_rows {A} (a : list A) (idx : list nat) : outcome (list A) :=
  match mapM (fun i => a !! i) idx with
  | Some rows => Returned rows
  | None => Raised "IndexError"
  end.

(** A stack of grey-scale images: a three-dimensional uint8 array. *)
Definition image := list (list Z).

(** [np.where(x <= bound)[0]]: for every entry of the three-dimensional
    array that passes the test, in row-major order, its index along the
    first axis. *)
Definition where_le_axis0 (x : list image) (bound : Z) : list nat :=
  concat (imap (fun i (img : image) =>
    replicate (length (filter (fun p => p ≤ bound) (concat img))) i) x).

(** [l[:k]] and [l[k:]]; a negative [k] counts from the end. *)
Definition slice_to {A} (k : Z) (l : list A) : list A :=
  take (Z.to_nat (if k <? 0 then len l + k else k)) l.
Definition slice_from {A} (k : Z) (l : list A) : list A :=
  drop (Z.to_nat (if k <? 0 then len l + k else k)) l.

(** [rows] rows of [cols] entries each, cut from a flat array. *)
Fixpoint chunks {A} (cols rows : nat) (flat : list A) : list (list A) :=
  match rows with
  | O => []
  | S rows' => take cols flat :: chunks cols rows' (drop cols flat)
  end.

(** [X.reshape(rows, cols)]: the entries in row-major order, regrouped;
    raises unless the array has exactly [rows * cols] entries. *)
Definition reshape (X : list image) (rows cols : Z) : outcome (matrix Z) :=
  let flat := concat (concat X) in
  if decide (len flat = rows * cols)
  then Returned (chunks (Z.to_nat cols) (Z.to_nat rows) flat)
  else Raised "ValueError".

(** [X.shape] of a two-dimensional array. *)
Definition shape {A} (X : list (list A)) : list pyarg :=
  [AInt (len X); AInt (match X with r :: _ => len r | [] => 0 end)].

(** What an experiment hands to [train_model]. *)
Record dataset (feature : Type) : Type := Dataset {
  X_train : matrix feature;
  y_train : labels;
  X_test : matrix feature;
  y_test : labels
}.
Arguments Dataset {feature} _ _ _ _.
Arguments X_train {feature} _.
Arguments y_train {feature} _.
Arguments X_test {feature} _.
Arguments y_test {feature} _.

(** What [load_breast_cancer()] returns, as far as the notebook reads it. *)
Record bunch (feature : Type) : Type := Bunch {
  data : matrix feature;
  target : list Z
}.
Arguments Bunch {feature} _ _.
Arguments data {feature} _.
Arguments target {feature} _.

Section Experiments.

(** numpy's global random generator and what [np.random.shuffle] does to
    an index array in a given state of it. *)
Context {rng : Type}.
Variable shuffle : list nat -> rng -> list nat * rng.

(** Cell 14, on the four arrays that [mnist.load_data()] returned in cell
    13.  Returns the rebound globals, the two printed lines and the state
    of the generator. *)
Definition mnist_cell (x_train : list image) (y_train : list Z)
    (x_test : list image) (y_test : list Z) (g : rng)
  : outcome (dataset Z * list printed * rng) :=
  let idx_01 := where_le_axis0 x_train 9 in
  let idx_02 := where_le_axis0 x_test 9 in
  let '(idx_01, g) := shuffle idx_01 g in
  let '(idx_02, g) := shuffle idx_02 g in
  let idx_01 := slice_to 15000 idx_01 in
  let idx_02 := slice_to 15000 idx_02 in
  X_train ← take_rows x_train idx_01;
  X_test ← take_rows x_test idx_02;
  y_train ← (fun y => (fun d => int64 (2 * Z.b2z (4 <? d) - 1)) <$> y)
    <$> take_rows y_train idx_01;
  y_test ← (fun y => (fun d => int64 (2 * Z.b2z (4 <? d) - 1)) <$> y)
    <$> take_rows y_test idx_02;
  X_train ← reshape X_train 15000 784;
  X_test ← reshape X_test 15000 784;
  mret (Dataset X_train y_train X_test y_test,
        [Formatted "Training data size: (%d, %d)" (shape X_train);
         Formatted "Testing data size: (%d, %d)" (shape X_test)],
        g).

(** Cell 18. *)
Definition mnist_train (d : dataset Z) : py Z (list obj) :=
  train_model (X_train d) (y_train d) (X_test d) (y_test d) 1%Q.

(** Cell 21, on what [load_breast_cancer()] returned. *)
Definition cancer_cell {feature} (wisc : bunch feature) (g : rng)
  : outcome (dataset feature * rng) :=
  let idx := seq 0 (length (target wisc)) in
  let '(idx, g) := shuffle idx g in
  (* train on a random 2/3 and test on the remaining 1/3 *)
  let idx_train := slice_to (2 * len idx / 3) idx in
  let idx_test := slice_from (2 * len idx / 3) idx in
  X_train ← take_rows (data wisc) idx_train;
  X_test ← take_rows (data wisc) idx_test;
  y_train ← (fun y => (fun t => int64 (2 * t - 1)) <$> y)
    <$> take_rows (target wisc) idx_train;
  y_test ← (fun y => (fun t => int64 (2 * t - 1)) <$> y)
    <$> take_rows (target wisc) idx_test;
  mret (Dataset X_train y_train X_test y_test, g).

(** Cell 24. *)
Definition cancer_train {feature} (d : dataset feature) : py feature (list obj) :=
  train_model (X_train d) (y_train d) (X_test d) (y_test d) 1%Q.

End Experiments.

(** ** Reading a trace *)

Section Traces.
Context {feature : Type}.

(** The kind of an event, without the data that went through it. *)
Inductive op : Type :=
| OpNew (c : cls)
| OpFitTransform (c : cls)
| OpFit (c : cls) (with_sampler : bool)
| OpPredict (c : cls)
| OpWeights (c : cls)
| OpAccuracy
| OpPrint.

#[global] Instance op_eq_dec : EqDecision op.
Proof. solve_decision. Defined.

(** The sampler among the positional arguments of a [fit], if any. *)
Definition sampler_arg (args : list pyval) : option obj :=
  match args with
  | [VObj s] => Some s
  | _ => None
  end.

Definition op_of_call {X} (c : call feature X) : op :=
  match c with
  | new c _ _ => OpNew c
  | fit_transform c _ _ => OpFitTransform c
  | fit c _ _ _ args _ => OpFit c (bool_decide (is_Some (sampler_arg args)))
  | predict c _ _ => OpPredict c
  | estimator_weights c _ => OpWeights c
  | accuracy_score _ _ => OpAccuracy
  end.

Definition op_of (ev : event feature) : op :=
  match ev with
  | Called c _ => op_of_call c
  | Printed _ => OpPrint
  end.

(** The exception an event ended with, if it did. *)
Definition raised (ev : event feature) : option exn :=
  match ev with
  | Called _ (Raised e) => Some e
  | _ => None
  end.

(** The [fit] calls that returned: class, receiver, sampler, keywords. *)
Definition fit_of (ev : event feature)
  : option (cls * obj * option obj * gmap string pyval) :=
  match ev with
  | Called (fit c self _ _ args kwargs) (Returned _) =>
      Some (c, self, sampler_arg args, kwargs)
  | _ => None
  end.
Definition fits (tr : trace feature) := omap fit_of tr.

(** The objects built: class, arguments, keywords, the new object. *)
Definition new_of (ev : event feature)
  : option (cls * list pyval * gmap string pyval * obj) :=
  match ev with
  | Called (new c args kwargs) (Returned o) => Some (c, args, kwargs, o)
  | _ => None
  end.
Definition news (tr : trace feature) := omap new_of tr.

End Traces.

(** The matrix a transformer, a [fit] or a [predict] was given, with the
    kind of the call and its receiver. *)
Definition use_of {feature} (ev : event feature)
  : option (op * obj * matrix feature) :=
  match ev with
  | Called c _ =>
      match c with
      | fit_transform _ self X | fit _ self X _ _ _ | predict _ self X =>
          Some (op_of_call c, self, X)
      | _ => None
      end
  | Printed _ => None
  end.
Definition uses {feature} (tr : trace feature) := omap use_of tr.

(** The objects that the constructor of class [c] returned. *)
Definition built {feature} (c : cls) (tr : trace feature) : list obj :=
  omap (fun n => if decide (n.1.1.1 = c) then Some n.2 else None) (news tr).

(** The constructions of class [c] that were attempted, whether they
    returned or raised: positional arguments and keywords. *)
Definition attempted_new_of {feature} (c : cls) (ev : event feature)
  : option (list pyval * gmap string pyval) :=
  match ev with
  | Called (new c' args kwargs) _ =>
      if decide (c' = c) then Some (args, kwargs) else None
  | _ => None
  end.

(** The fits that were given a sampler. *)
Definition sampler_fits {feature} (tr : trace feature) :=
  filter (fun f => is_Some f.1.2) (fits tr).

(** The transformations and the fits of a trace, in order. *)
Definition data_ops {feature} (tr : trace feature) : list op :=
  omap (fun ev =>
    match op_of ev with
    | OpFitTransform c => Some (OpFitTransform c)
    | OpFit c s => Some (OpFit c s)
    | _ => None
    end) tr.

(** How often a [fit] through the sampler was attempted on class [c]. *)
Definition sampler_fit_attempts {feature} (c : cls) (tr : trace feature) : nat :=
  length (filter (fun ev => op_of ev = OpFit c true) tr).

(** The transformations that returned: class, receiver, the matrix given
    and the matrix returned. *)
Definition transform_of {feature} (ev : event feature)
  : option (cls * obj * matrix feature * matrix feature) :=
  match ev with
  | Called (fit_transform c self X) (Returned M) => Some (c, self, X, M)
  | _ => None
  end.
Definition transforms {feature} (tr : trace feature) := omap transform_of tr.

(** The test matrix after preprocessing: what the fourth transformation
    returned. *)
Definition preprocessed_test {feature} (tr : trace feature)
  : option (matrix feature) :=
  snd <$> transforms tr !! 3%nat.

(** The matrices on which predictions were asked, in order. *)
Definition predict_inputs {feature} (tr : trace feature) : list (matrix feature) :=
  omap (fun ev =>
    match ev with
    | Called (predict _ _ X) _ => Some X
    | _ => None
    end) tr.

(** The class of the receiver of a method call. *)
Definition receiver_class {feature} (ev : event feature) : option cls :=
  match ev with
  | Called c _ =>
      match c with
      | fit_transform c _ _ | fit c _ _ _ _ _ | predict c _ _
      | estimator_weights c _ => Some c
      | _ => None
      end
  | Printed _ => None
  end.

(** ** What is known about the libraries *)

Section Reasoning.
Context {feature : Type}.

(** What is known about the answers of the libraries. *)
Definition contract := forall X : Type, call feature X -> outcome X -> Prop.

(** Nothing is known. *)
Definition anything : contract := fun _ _ _ => True.

Definition respects {world : Type}
    (lib : forall X : Type, call feature X -> world -> outcome X * world)
    (C : contract) : Prop :=
  forall X (c : call feature X) w, C X c (lib X c w).1.

(** [always C p pre Q]: after the events [pre], however the libraries
    answer within [C], [p] ends with an outcome and a trace that satisfy
    [Q]. *)
Fixpoint always (C : contract) {R : Type} (p : py feature R)
    (pre : trace feature) (Q : outcome R -> trace feature -> Prop) : Prop :=
  match p with
  | Return r => Q (Returned r) pre
  | Call c k =>
      forall r, C _ c r ->
        match r with
        | Returned x => always C (k x) (pre ++ [Called c r]) Q
        | Raised e => Q (Raised e) (pre ++ [Called c r])
        end
  | Output p k => always C k (pre ++ [Printed p]) Q
  end.

End Reasoning.

(** Modelled from the spec: scikit-learn's [accuracy_score] is outside the
    repository; the spec calls its value the classification accuracy, the
    fraction of the positions at which the two vectors agree.  For empty
    vectors the denominator is taken as one. *)
Definition agreements (y y_pred : labels) : nat :=
  length (filter (fun p => p.1 = p.2) (zip y y_pred)).
Definition accuracy (y y_pred : labels) : Q :=
  Z.of_nat (agreements y y_pred) # Pos.of_nat (length y).

(** What [fit_transform] is known to do: it fits anew, so that what it
    returns is a function of the class of the transformer and of the
    matrix it is given, whatever the transformer was fit on before. *)
Definition refits {feature} (scale normalize : matrix feature -> matrix feature)
  : contract (feature := feature) :=
  fun X c =>
    match c in call _ X return outcome X -> Prop with
    | fit_transform StandardScaler _ M =>
        fun r => forall M', r = Returned M' -> M' = scale M
    | fit_transform Normalizer _ M =>
        fun r => forall M', r = Returned M' -> M' = normalize M
    | _ => fun _ => True
    end.

(** Constructing an imputer returns an object and changes nothing
    outside the notebook. *)
Definition imputer_is_inert {feature world}
    (lib : forall X : Type, call feature X -> world -> outcome X * world)
  : Prop :=
  forall w, exists o, lib obj (new Imputer [] ∅) w = (Returned o, w).

(** ** Properties of executions and of cells *)

(** The execution of one call of [train_model]. *)
Definition execution {feature world : Type}
    (lib : forall X : Type, call feature X -> world -> outcome X * world)
    (X_train0 : matrix feature) (y_train0 : labels)
    (X_test0 : matrix feature) (y_test0 : labels) (lmd : Q) (w : world)
  : outcome (list obj) * world * trace feature :=
  run lib (train_model X_train0 y_train0 X_test0 y_test0 lmd) w.

(** An exception ends the execution: the call that raised is the last
    event, and its exception is the outcome. *)
Definition propagates {feature world R}
    (r : outcome R * world * trace feature) : Prop :=
  forall pre ev post e,
    r.2 = pre ++ ev :: post -> raised ev = Some e ->
    post = [] /\ r.1.1 = Raised e.

Definition completed {feature} (tr : trace feature) : Prop :=
  Forall (fun ev => raised ev = None) tr.

#[global] Instance completed_dec {feature} (tr : trace feature) :
  Decision (completed tr).
Proof. apply Forall_dec. intros ev. apply _. Defined.

(** ** The order of the calls in [train_model] *)

(** What one classifier goes through: its heading, its constructor, one
    [fit], the prediction on the training and on the test matrix, for the
    two boosted ensembles the weights, and the two accuracies. *)
Definition classifier_ops (c : cls) (with_sampler : bool) : list op :=
  [OpPrint; OpNew c; OpFit c with_sampler; OpPredict c; OpPredict c]
  ++ (if with_sampler then [OpWeights c; OpPrint] else [])
  ++ [OpAccuracy; OpPrint; OpAccuracy; OpPrint].

Definition preprocessing_ops : list op :=
  [OpNew Imputer; OpNew StandardScaler; OpNew Normalizer;
   OpFitTransform StandardScaler; OpFitTransform Normalizer;
   OpFitTransform StandardScaler; OpFitTransform Normalizer].

Definition table_ops : list op :=
  [OpPrint; OpPrint] ++ replicate 5 OpAccuracy ++ [OpPrint]
  ++ replicate 5 OpAccuracy ++ [OpPrint; OpPrint].

(** The classifiers in training order, with whether they are trained
    through the sampler. *)
Definition classifiers : list (cls * bool) :=
  [(AdaBoostClassifier, false); (WeakClassifiers, false);
   (RandomForestClassifier, false); (QBoostClassifier, true);
   (QboostPlus, true)].

Definition schedule : list op :=
  [OpNew DWaveSampler; OpNew EmbeddingComposite; OpPrint; OpPrint; OpPrint]
  ++ preprocessing_ops
  ++ (classifiers ≫= fun c => classifier_ops c.1 c.2)
  ++ table_ops.

(** A boolean test for "is a beginning of". *)
Fixpoint begins (l s : list op) : bool :=
  match l, s with
  | [], _ => true
  | a :: l', b :: s' => bool_decide (a = b) && begins l' s'
  | _ :: _, [] => false
  end.

(** The count as the specification has it: four classifiers are fit, one
    of them through the sampler. *)
Definition four_fits_one_on_sampler {feature} (tr : trace feature) : Prop :=
  length (fits tr) = 4%nat /\ length (sampler_fits tr) = 1%nat.

(** The transformations and the fits of [train_model], in order. *)
Definition preprocessing_then_fits : list op :=
  (OpFitTransform <$> [StandardScaler; Normalizer; StandardScaler; Normalizer])
  ++ ((fun c => OpFit c.1 c.2) <$> classifiers).

(** The accuracy of classifier [o] of class [c] is reported on both sets:
    [o] was fit on the matrix [X_train] with the labels [y_train], it
    predicted on [X_train] and on [X_test], the first prediction was
    scored against [y_train] and the second against [y_test], and each
    score was printed under its heading. *)
Definition reports_accuracy {feature} (tr : trace feature)
    (X_train : matrix feature) (y_train : labels)
    (X_test : matrix feature) (y_test : labels) (c : cls) (o : obj) : Prop :=
  exists args kwargs pa pb sa sb,
    Called (fit c o X_train y_train args kwargs) (Returned tt) ∈ tr /\
    Called (predict c o X_train) (Returned pa) ∈ tr /\
    Called (accuracy_score y_train pa) (Returned sa) ∈ tr /\
    Printed (Formatted "accu (train): %5.2f" [AFloat sa]) ∈ tr /\
    Called (predict c o X_test) (Returned pb) ∈ tr /\
    Called (accuracy_score y_test pb) (Returned sb) ∈ tr /\
    Printed (Formatted "accu (test): %5.2f" [AFloat sb]) ∈ tr.

(** [train_model] as it would read if the imputer were never constructed:
    the same statements without [imputer = preprocessing.Imputer()]. *)
Definition train_model_without_imputer {feature}
    (X_train : matrix feature) (y_train : labels)
    (X_test : matrix feature) (y_test : labels) (lmd : Q)
  : py feature (list obj) :=
  dwave_sampler ← do_call (new DWaveSampler []
    (<["token" := VStr sapi_token]> (<["endpoint" := VStr url]> ∅)));
  emb_sampler ← do_call (new EmbeddingComposite [VObj dwave_sampler] ∅);
  let N_train := len X_train in
  let N_test := len X_test in
  print (Line (AStr (nl +:+ "======================================")));;
  print (Formatted "Train size: %d, Test size: %d" [AInt N_train; AInt N_test]);;
  print (Items [AStr "Num weak classifiers:"; AInt NUM_WEAK_CLASSIFIERS]);;
  train_model_body emb_sampler X_train y_train X_test y_test lmd.

(** A property of what a cell computes, if it completes. *)
Definition on_return {A} (P : A -> Prop) (o : outcome A) : Prop :=
  match o with
  | Returned a => P a
  | Raised _ => True
  end.

(** A label of a two-class problem in spin form. *)
Definition spin (v : Z) : Prop := v = 1 \/ v = -1.

(** The shape of the MNIST images: 28 rows of 28 pixels. *)
Definition mnist_shaped (x : list image) : Prop :=
  Forall (fun img : image =>
    length img = 28%nat /\ Forall (fun row => length row = 28%nat) img) x.

(** The row counts agree with the label counts. *)
Definition rows_match_labels {feature} (d : dataset feature) : Prop :=
  length (X_train d) = length (y_train d) /\
  length (X_test d) = length (y_test d).

Definition labels_are_spins {feature} (d : dataset feature) : Prop :=
  Forall spin (y_train d) /\ Forall spin (y_test d).

(** ** A behaviour of the libraries to run the notebook on *)

(** A small stand-in for the libraries: the world counts the [fit] calls
    made so far, an object is numbered by its class, the scaler reverses
    every row and the normalizer the order of the rows, every prediction
    is [+1], and the score is the accuracy.  When [offline], a [fit] that
    is given a sampler fails. *)
Definition demo_scale {feature} (X : matrix feature) : matrix feature :=
  reverse <$> X.
Definition demo_normalize {feature} (X : matrix feature) : matrix feature :=
  reverse X.

Definition cls_id (c : cls) : obj :=
  match c with
  | DWaveSampler => 0 | EmbeddingComposite => 1 | Imputer => 2
  | StandardScaler => 3 | Normalizer => 4 | AdaBoostClassifier => 5
  | WeakClassifiers => 6 | RandomForestClassifier => 7
  | QBoostClassifier => 8 | QboostPlus => 9
  end%nat.

Definition demo_lib {feature} (offline : bool) (X : Type)
    (c : call feature X) (w : nat) : outcome X * nat :=
  match c in call _ X return outcome X * nat with
  | new c _ _ => (Returned (cls_id c), w)
  | fit_transform c _ X =>
      (Returned match c with
                | StandardScaler => demo_scale X
                | Normalizer => demo_normalize X
                | _ => X
                end, w)
  | fit _ _ _ _ args _ =>
      if offline && bool_decide (is_Some (sampler_arg args))
      then (Raised "ConnectionError", w)
      else (Returned tt, S w)
  | predict _ _ X => (Returned ((fun _ => 1) <$> X), w)
  | estimator_weights _ _ => (Returned [1; 0; 1], w)
  | accuracy_score y y_pred => (Returned (accuracy y y_pred), w)
  end.

(** One call on the stand-in libraries: two training samples, one test sample. *)
Definition demo_execution (offline : bool)
  : outcome (list obj) * nat * trace Z :=
  execution (demo_lib offline) [[1; 2]; [3; 4]] [1; -1] [[5; 6]] [-1] 1%Q 0%nat.

(** A shuffle for the examples: the array reversed. *)
Definition reversing : list nat -> () -> list nat * () :=
  fun l g => (reverse l, g).

(** Twenty blank images give 15680 indices, enough for cell 14 to
    complete. *)
Definition blank_images : list image :=
  replicate 20 (replicate 28 (replicate 28 0)).

(** ** More readings of a trace *)

(** The classifiers' constructions and fits that returned, in order:
    the kind of the call and the object built or fit. *)
Definition lifecycle {feature} (tr : trace feature) : list (op * obj) :=
  omap (fun ev =>
    match ev with
    | Called (new c _ _) (Returned o) =>
        if bool_decide (c ∈ classifiers.*1) then Some (OpNew c, o) else None
    | Called (fit c o _ _ args _) (Returned _) =>
        Some (OpFit c (bool_decide (is_Some (sampler_arg args))), o)
    | _ => None
    end) tr.

(** The fits that were attempted, whether they returned or raised: class,
    labels, positional arguments after the labels, keywords. *)
Definition attempted_fits {feature} (tr : trace feature)
  : list (cls * labels * list pyval * gmap string pyval) :=
  omap (fun ev =>
    match ev with
    | Called (fit c _ _ y args kwargs) _ => Some (c, y, args, kwargs)
    | _ => None
    end) tr.

(** What the predictions returned, in order. *)
Definition predicted {feature} (tr : trace feature) : list labels :=
  omap (fun ev =>
    match ev with
    | Called (predict _ _ _) (Returned p) => Some p
    | _ => None
    end) tr.

(** The pairs of vectors that were scored, and the scores returned. *)
Definition score_inputs {feature} (tr : trace feature) : list (labels * labels) :=
  omap (fun ev =>
    match ev with
    | Called (accuracy_score y y_pred) _ => Some (y, y_pred)
    | _ => None
    end) tr.
Definition score_results {feature} (tr : trace feature) : list Q :=
  omap (fun ev =>
    match ev with
    | Called (accuracy_score _ _) (Returned s) => Some s
    | _ => None
    end) tr.

(** The floats that were printed, in order. *)
Definition printed_scores {feature} (tr : trace feature) : list Q :=
  tr ≫= fun ev =>
    match ev with
    | Printed (Formatted _ args) =>
        omap (fun a => match a with AFloat s => Some s | _ => None end) args
    | _ => []
    end.

(** Consecutive entries taken two by two. *)
Fixpoint pair_up {A} (l : list A) : list (A * A) :=
  match l with
  | x :: y :: l' => (x, y) :: pair_up l'
  | _ => []
  end.

(** The classifiers that are trained through the sampler. *)
Definition uses_sampler (c : cls) : bool :=
  match c with
  | QBoostClassifier | QboostPlus => true
  | _ => false
  end.

(** The calls that were handed objects as positional arguments, whether
    they returned or raised: the kind of the call and the arguments. *)
Definition handed {feature} (tr : trace feature) : list (op * list pyval) :=
  omap (fun ev =>
    match ev with
    | Called (new c (a :: args) _) _ => Some (OpNew c, a :: args)
    | Called (fit c _ _ _ (a :: args) _) _ =>
        Some (OpFit c (bool_decide (is_Some (sampler_arg (a :: args)))),
              a :: args)
    | _ => None
    end) tr.

(** "No repeated calls", as the specification has it: no call is made
    at two places of an execution. *)
Definition no_repeated_calls {feature} (tr : trace feature) : Prop :=
  forall (i j : nat) X (c : call feature X) r r',
    tr !! i = Some (Called c r) -> tr !! j = Some (Called c r') -> i = j.

(** The pairs of vectors scored after the classifiers' predictions, and
    those scored for the comparison table, for the pairs [ps] of
    predictions. *)
Definition scored_after {A} (y_train y_test : A) (ps : list (A * A))
  : list (A * A) :=
  ps ≫= fun p => [(y_train, p.1); (y_test, p.2)].
Definition scored_in_table {A} (y_train y_test : A) (ps : list (A * A))
  : list (A * A) :=
  ((fun p => (y_train, p.1)) <$> ps) ++ ((fun p => (y_test, p.2)) <$> ps).

(** What happens to a prediction: it is made on a matrix, scored
    against labels, and the score is printed, possibly with others on
    one line. *)
Inductive report (feature : Type) : Type :=
| Predicted (X : matrix feature) (y_pred : labels)
| Scored (y y_pred : labels) (score : Q)
| Shown (scores : list Q).
Arguments Predicted {feature} X y_pred.
Arguments Scored {feature} y y_pred score.
Arguments Shown {feature} scores.

(** The predictions that returned, the scores that returned and the
    lines that printed floats, in the order in which they happened. *)
Definition timeline {feature} (tr : trace feature) : list (report feature) :=
  omap (fun ev =>
    match ev with
    | Called (predict _ _ X) (Returned p) => Some (Predicted X p)
    | Called (accuracy_score y p) (Returned s) => Some (Scored y p s)
    | Printed (Formatted _ args) =>
        match omap (fun a => match a with AFloat s => Some s | _ => None end)
                args with
        | [] => None
        | scores => Some (Shown scores)
        end
    | _ => None
    end) tr.

(** What [train_model] does with the predictions: for each classifier
    the prediction on [X_train] and on [X_test], then the score of the
    first against [y_train] and its line, then the score of the second
    against [y_test] and its line; after the last classifier the table,
    a row of scores of the training predictions and a row of scores of
    the test predictions.  [ps] are the pairs of predictions and [ss]
    the twenty scores in the order in which they were returned. *)
Definition reporting {feature} (X_train : matrix feature) (y_train : labels)
    (X_test : matrix feature) (y_test : labels)
    (ps : list (labels * labels)) (ss : list Q) : list (report feature) :=
  (zip ps (pair_up (take 10 ss)) ≫= fun r =>
     [Predicted X_train r.1.1; Predicted X_test r.1.2;
      Scored y_train r.1.1 r.2.1; Shown [r.2.1];
      Scored y_test r.1.2 r.2.2; Shown [r.2.2]])
  ++ zip_with (fun p s => Scored y_train p.1 s) ps (take 5 (drop 10 ss))
  ++ [Shown (take 5 (drop 10 ss))]
  ++ zip_with (fun p s => Scored y_test p.2 s) ps (drop 15 ss)
  ++ [Shown (drop 15 ss)].

(** ** Cell 16: the first sixteen training images *)

(** [a[i]] with one integer; a negative [i] counts from the end, and an
    index out of range raises. *)
Definition item {A} (a : list A) (i : Z) : outcome A :=
  let j := if i <? 0 then len a + i else i in
  if j <? 0 then Raised "IndexError"
  else match a !! Z.to_nat j with
       | Some x => Returned x
       | None => Raised "IndexError"
       end.

(** [row.reshape(rows, cols)] of a one-dimensional array. *)
Definition reshape_row (row : list Z) (rows cols : Z) : outcome image :=
  if decide (len row = rows * cols)
  then Returned (chunks (Z.to_nat cols) (Z.to_nat rows) row)
  else Raised "ValueError".

(** The calls of matplotlib's [pyplot] that the notebook makes.  They
    draw on the current figure, which is held as the list of the calls
    made so far. *)
Inductive plt_call : Type :=
| subplot (nrows ncols index : Z)
| imshow (X : image) (cmap : string)
| axis (option : string).

(** The body of the loop of cell 16 for one [i]. *)
Definition draw_digit (d : dataset Z) (i : Z) (fig : list plt_call)
  : outcome unit * list plt_call :=
  match item (y_train d) i with
  | Raised e => (Raised e, fig)
  | Returned y =>
      let COLORMAP := if decide (y = 1) then "gray" else "gray_r" in
      let fig := fig ++ [subplot 4 4 (i + 1)] in
      match item (X_train d) i ≫= fun row => reshape_row row 28 28 with
      | Raised e => (Raised e, fig)
      | Returned img => (Returned tt, fig ++ [imshow img COLORMAP; axis "off"])
      end
  end.

(** [for i in l: body]: the first exception ends the loop. *)
Fixpoint for_each {A S} (body : A -> S -> outcome unit * S)
    (l : list A) (s : S) : outcome unit * S :=
  match l with
  | [] => (Returned tt, s)
  | i :: l' =>
      match body i s with
      | (Returned _, s') => for_each body l' s'
      | (Raised e, s') => (Raised e, s')
      end
  end.

(** [range(n)]. *)
Definition range (n : nat) : list Z := Z.of_nat <$> seq 0 n.

(** Cell 16, on the globals that cell 14 rebound, starting from an empty
    figure. *)
Definition cell16 (d : dataset Z) : outcome unit * list plt_call :=
  for_each (draw_digit d) (range 16) [].

(** What cell 14 selects: the index arrays after the shuffles and the
    slices. *)
Definition mnist_indices {rng} (shuffle : list nat -> rng -> list nat * rng)
    (x_train x_test : list image) (g : rng) : list nat * list nat :=
  let '(idx_01, g) := shuffle (where_le_axis0 x_train 9) g in
  let '(idx_02, g) := shuffle (where_le_axis0 x_test 9) g in
  (slice_to 15000 idx_01, slice_to 15000 idx_02).

(** The label of a digit and of a target. *)
Definition digit_label (d : Z) : Z := int64 (2 * Z.b2z (4 <? d) - 1).
Definition target_label (t : Z) : Z := int64 (2 * t - 1).

(** The shuffle permutes. *)
Definition permutes {rng} (shuffle : list nat -> rng -> list nat * rng) : Prop :=
  forall l g, (shuffle l g).1 ≡ₚ l.

(** What the loop draws for sample [i] with label [y] and image [img]. *)
Definition drawn (i : nat) (y : Z) (img : image) : list plt_call :=
  [subplot 4 4 (Z.of_nat i + 1);
   imshow img (if decide (y = 1) then "gray" else "gray_r");
   axis "off"].

(** ** Small inputs to run the cells on *)

(** Three samples of one feature each. *)
Definition three_samples : bunch Z := Bunch [[1]; [2]; [3]] [0; 1; 1].

(** One blank image with the label [1], and nothing to test on. *)
Definition one_sample : dataset Z := Dataset [replicate 784 0] [1] [] [].

(** * Part II: lemmas and theorems *)

(** Opens a function into one case per answer of the libraries, a call at
    a time; [tac] closes the cases in which a call raised. *)
Ltac every_answer tac :=
  lazymatch goal with
  | |- always _ _ _ ?Q =>
      let q := fresh "Q" in
      let Hq := fresh "HQ" in
      remember Q as q eqn:Hq;
      repeat (hnf; intros [?|?] ?; [| subst q; tac]);
      hnf; subst q
  end.

(** Finds an event in a trace that is written out. *)
Ltac find_event :=
  (apply list_elem_of_here) + (apply list_elem_of_further; find_event).

(** ** Every behaviour of the libraries at once *)

(** [always] is sound: what holds however the libraries answer within
    [C] holds of the execution against libraries that respect [C]. *)
Lemma always_run {feature world : Type}
    (lib : forall X : Type, call feature X -> world -> outcome X * world)
    (C : contract) (HC : respects lib C) {R : Type} (p : py feature R) :
  forall pre Q w, always C p pre Q ->
    Q (run lib p w).1.1 (pre ++ (run lib p w).2).
Proof.
  induction p as [r | X c k IH | p k IH]; intros pre Q w H; cbn in *.
  - by rewrite app_nil_r.
  - specialize (H (lib X c w).1 (HC X c w)).
    destruct (lib X c w) as [[x | e] w']; cbn in *.
    + specialize (IH x _ Q w' H).
      destruct (run lib (k x) w') as [[res w''] tr]; cbn in *.
      by rewrite <- app_assoc in IH.
    + done.
  - specialize (IH _ Q w H).
    destruct (run lib k w) as [[res w'] tr]; cbn in *.
    by rewrite <- app_assoc in IH.
Qed.

Lemma respects_anything {feature world : Type}
    (lib : forall X : Type, call feature X -> world -> outcome X * world) :
  respects lib anything.
Proof. by intros X c w. Qed.

(** Every property [Q] that holds however the libraries answer holds of
    the execution of [train_model]. *)
Lemma execution_always {feature world : Type}
    (lib : forall X : Type, call feature X -> world -> outcome X * world)
    (X_train0 : matrix feature) (y_train0 : labels)
    (X_test0 : matrix feature) (y_test0 : labels) (lmd : Q)
    (Q : outcome (list obj) -> trace feature -> Prop) w :
  always anything (train_model X_train0 y_train0 X_test0 y_test0 lmd) [] Q ->
  Q (execution lib X_train0 y_train0 X_test0 y_test0 lmd w).1.1
    (execution lib X_train0 y_train0 X_test0 y_test0 lmd w).2.
Proof.
  intros H.
  apply (always_run lib anything (respects_anything lib) _ [] Q w H).
Qed.

Lemma begins_prefix l s : begins l s = true -> l `prefix_of` s.
Proof.
  revert s. induction l as [| a l IH]; intros s H.
  - apply prefix_nil.
  - destruct s as [| b s]; cbn in H; [done |].
    apply andb_prop in H as [Hab Hls].
    apply bool_decide_eq_true in Hab as ->.
    by apply prefix_cons, IH.
Qed.

(** No notebook function catches an exception. *)
Lemma run_propagates {feature world}
    (lib : forall X : Type, call feature X -> world -> outcome X * world)
    {R} (p : py feature R) w :
  propagates (run lib p w).
Proof.
  revert w. induction p as [r | X c k IH | p k IH];
    intros w pre ev post e Htr Hev; cbn in *.
  - by destruct pre.
  - destruct (lib X c w) as [[x | e'] w']; cbn in *.
    + specialize (IH x w').
      destruct (run lib (k x) w') as [[res w''] tr]; cbn in *.
      destruct pre as [| a pre]; simplify_eq/=.
      by apply (IH pre ev post e).
    + destruct pre as [| a pre]; simplify_eq/=; [done |].
      by destruct pre.
  - specialize (IH w).
    destruct (run lib k w) as [[res w'] tr]; cbn in *.
    destruct pre as [| a pre]; simplify_eq/=.
    by apply (IH pre ev post e).
Qed.

(** The other way round: an exception that comes out was raised by the
    last call made. *)
Lemma run_raised_by_call {feature world}
    (lib : forall X : Type, call feature X -> world -> outcome X * world)
    {R} (p : py feature R) w e :
  (run lib p w).1.1 = Raised e ->
  exists pre ev, (run lib p w).2 = pre ++ [ev] /\ raised ev = Some e.
Proof.
  revert w. induction p as [r | X c k IH | p k IH]; intros w H; cbn in *.
  - done.
  - destruct (lib X c w) as [[x | e'] w']; cbn in *.
    + specialize (IH x w').
      destruct (run lib (k x) w') as [[res w''] tr]; cbn in *.
      destruct (IH H) as (pre & ev & -> & Hev).
      by exists (Called c (Returned x) :: pre), ev.
    + simplify_eq. by exists [], (Called c (Raised e)).
  - specialize (IH w).
    destruct (run lib k w) as [[res w'] tr]; cbn in *.
    destruct (IH H) as (pre & ev & -> & Hev).
    by exists (Printed p :: pre), ev.
Qed.

(** A trace that ends with a call that raised is not completed. *)
Lemma not_completed {feature X} (pre : trace feature) (c : call feature X) e :
  ~ completed (pre ++ [Called c (Raised e)]).
Proof.
  intros H. apply Forall_app in H as [_ H].
  by apply Forall_cons in H as [H _].
Qed.

(** A function that returned made no call that raised. *)
Lemma returned_completed {feature world}
    (lib : forall X : Type, call feature X -> world -> outcome X * world)
    {R} (p : py feature R) w r :
  (run lib p w).1.1 = Returned r -> completed (run lib p w).2.
Proof.
  intros Hr. apply Forall_forall. intros ev Hev.
  destruct (raised ev) as [e |] eqn:He; [| done].
  apply list_elem_of_split in Hev as (pre & post & Htr).
  destruct (run_propagates lib p w pre ev post e Htr He) as [_ Hres].
  congruence.
Qed.

Lemma filter_all {A} (P : A -> Prop) `{!forall x, Decision (P x)} (l : list A) :
  Forall P l -> filter P l = l.
Proof.
  induction 1 as [| x l Hx _ IH]; [done |].
  by rewrite filter_cons_True, IH.
Qed.

(** The statements after the construction of the imputer build none. *)
Lemma body_builds_no_imputer {feature world}
    (lib : forall X : Type, call feature X -> world -> outcome X * world)
    emb (X_train0 : matrix feature) (y_train0 : labels)
    (X_test0 : matrix feature) (y_test0 : labels) (lmd : Q) (w : world) :
  Forall (fun ev => op_of ev <> OpNew Imputer)
    (run lib (train_model_body emb X_train0 y_train0 X_test0 y_test0 lmd) w).2.
Proof.
  apply (always_run lib anything (respects_anything lib)
    (train_model_body emb X_train0 y_train0 X_test0 y_test0 lmd) []
    (fun _ tr => Forall (fun ev => op_of ev <> OpNew Imputer) tr) w).
  every_answer ltac:(apply (bool_decide_unpack _); lazy; reflexivity).
  apply (bool_decide_unpack _); lazy; reflexivity.
Qed.

Lemma demo_lib_refits {feature} offline :
  respects (demo_lib (feature := feature) offline)
    (refits demo_scale demo_normalize).
Proof.
  intros X c w. destruct c as [| c self M | | | |]; try exact I.
  destruct c; try exact I; cbn; intros M' [= <-]; reflexivity.
Qed.

Section Preprocessing.
Context {feature world : Type}.
Variable lib : forall X : Type, call feature X -> world -> outcome X * world.
Variables scale normalize : matrix feature -> matrix feature.
Hypothesis lib_refits : respects lib (refits scale normalize).

(** One call of [train_model]: once the test matrix is preprocessed, it
    is the normalized scaled [X_test]; the scaler was given [X_test]
    itself and the normalizer what the scaler returned; and every second
    prediction is asked on it. *)
Lemma preprocessed_test_of_X_test
    (X_train0 : matrix feature) (y_train0 : labels)
    (X_test0 : matrix feature) (y_test0 : labels) (lmd : Q) (w : world) :
  let t := execution lib X_train0 y_train0 X_test0 y_test0 lmd w in
  forall M, preprocessed_test t.2 = Some M ->
    M = normalize (scale X_test0) /\
    exists scaler normalizer Xa Xb Xc,
      transforms t.2 =
        [(StandardScaler, scaler, X_train0, Xa);
         (Normalizer, normalizer, Xa, Xb);
         (StandardScaler, scaler, X_test0, Xc);
         (Normalizer, normalizer, Xc, M)] /\
      predict_inputs t.2 `prefix_of` concat (replicate 5 [Xb; M]).
Proof.
  intros t. subst t.
  apply (always_run lib (refits scale normalize) lib_refits
    (train_model X_train0 y_train0 X_test0 y_test0 lmd) []
    (fun _ tr => forall M, preprocessed_test tr = Some M ->
       M = normalize (scale X_test0) /\
       exists scaler normalizer Xa Xb Xc,
         transforms tr =
           [(StandardScaler, scaler, X_train0, Xa);
            (Normalizer, normalizer, Xa, Xb);
            (StandardScaler, scaler, X_test0, Xc);
            (Normalizer, normalizer, Xc, M)] /\
         predict_inputs tr `prefix_of` concat (replicate 5 [Xb; M])) w).
  every_answer ltac:(
    intros M HM; lazy in HM;
    first
      [ discriminate HM
      | injection HM as <-;
        repeat match goal with
        | H : refits _ _ _ (fit_transform _ _ _) (Returned _) |- _ =>
            specialize (H _ eq_refl); cbn in H
        end;
        split; [congruence |];
        eexists _, _, _, _, _; split; [lazy; reflexivity |];
        eexists; lazy; reflexivity ]).
  intros M HM; lazy in HM; injection HM as <-.
  repeat match goal with
  | H : refits _ _ _ (fit_transform _ _ _) (Returned _) |- _ =>
      specialize (H _ eq_refl); cbn in H
  end.
  split; [congruence |].
  eexists _, _, _, _, _; split; [lazy; reflexivity |].
  eexists; lazy; reflexivity.
Qed.

End Preprocessing.

(** ** The cells *)

Lemma take_rows_returned {A} (a : list A) idx rows :
  take_rows a idx = Returned rows ->
  Forall2 (fun i r => a !! i = Some r) idx rows.
Proof.
  unfold take_rows. destruct (mapM _ idx) as [k |] eqn:E; [| done].
  intros [= <-]. by apply mapM_Some_1.
Qed.

Lemma take_rows_length {A} (a : list A) idx rows :
  take_rows a idx = Returned rows -> length rows = length idx.
Proof.
  intros H. symmetry. eapply Forall2_length, take_rows_returned, H.
Qed.

Lemma take_rows_Forall {A} (P : A -> Prop) (a : list A) idx rows :
  Forall P a -> take_rows a idx = Returned rows -> Forall P rows.
Proof.
  intros Ha H. apply take_rows_returned in H.
  induction H as [| i r idx rows Hi _ IH]; constructor; [| done].
  eapply Forall_forall; [exact Ha |]. by eapply list_elem_of_lookup_2.
Qed.

Lemma take_rows_in_range {A} (a : list A) idx :
  Forall (fun i => (i < length a)%nat) idx ->
  exists rows, take_rows a idx = Returned rows.
Proof.
  intros H. unfold take_rows.
  destruct (mapM_is_Some_2 (fun i => a !! i) idx) as [rows ->]; [| by eexists].
  eapply Forall_impl; [exact H |]. intros i Hi. by apply lookup_lt_is_Some_2.
Qed.

Lemma length_chunks {A} cols rows (flat : list A) :
  length (chunks cols rows flat) = rows.
Proof.
  revert flat. induction rows as [| rows IH]; intros flat; cbn; [done |].
  by rewrite IH.
Qed.

Lemma mnist_shaped_size (x : list image) :
  mnist_shaped x -> len (concat (concat x)) = 784 * len x.
Proof.
  assert (Himg : forall img : image,
    Forall (fun row => length row = 28%nat) img ->
    length (concat img) = (28 * length img)%nat).
  { induction 1 as [| row img Hrow _ IH]; [done |].
    cbn [concat]. rewrite length_app, Hrow, IH. cbn [length]. lia. }
  unfold len. induction 1 as [| img x [Hrows Hcols] _ IH]; [done |].
  cbn [concat]. rewrite concat_app, length_app, (Himg _ Hcols), Hrows.
  cbn [length]. lia.
Qed.

Lemma reshape_returned (X : list image) rows cols M :
  reshape X rows cols = Returned M ->
  length M = Z.to_nat rows /\ len (concat (concat X)) = rows * cols.
Proof.
  unfold reshape. case_decide; [| done].
  intros [= <-]. by rewrite length_chunks.
Qed.

Lemma int64_of_spin (b : bool) : spin (int64 (2 * Z.b2z b - 1)).
Proof. destruct b; [by left | by right]. Qed.

Section ExperimentProperties.
Context {rng : Type}.
Variable shuffle : list nat -> rng -> list nat * rng.

Lemma mnist_cell_labels (x_train0 : list image) (y_train0 : list Z)
    (x_test0 : list image) (y_test0 : list Z) (g : rng) :
  on_return (fun r => labels_are_spins r.1.1)
    (mnist_cell shuffle x_train0 y_train0 x_test0 y_test0 g).
Proof.
  unfold mnist_cell.
  destruct (shuffle _ g) as [idx_01 g1].
  destruct (shuffle _ g1) as [idx_02 g2].
  destruct (take_rows x_train0 _) as [X1 | e]; [| done].
  destruct (take_rows x_test0 _) as [X2 | e]; [| done].
  destruct (take_rows y_train0 _) as [y1 | e]; [| done].
  destruct (take_rows y_test0 _) as [y2 | e]; [| done].
  cbn. destruct (reshape X1 _ _) as [M1 | e]; [| done].
  cbn. destruct (reshape X2 _ _) as [M2 | e]; [| done].
  cbn. split; apply Forall_fmap, Forall_true; intros d; apply int64_of_spin.
Qed.

Lemma mnist_cell_rows (x_train0 : list image) (y_train0 : list Z)
    (x_test0 : list image) (y_test0 : list Z) (g : rng) :
  mnist_shaped x_train0 -> mnist_shaped x_test0 ->
  on_return (fun r => rows_match_labels r.1.1)
    (mnist_cell shuffle x_train0 y_train0 x_test0 y_test0 g).
Proof.
  intros Htrain Htest. unfold mnist_cell.
  destruct (shuffle _ g) as [idx_01 g1].
  destruct (shuffle _ g1) as [idx_02 g2].
  destruct (take_rows x_train0 _) as [X1 | e] eqn:EX1; [| done].
  destruct (take_rows x_test0 _) as [X2 | e] eqn:EX2; [| done].
  destruct (take_rows y_train0 _) as [y1 | e] eqn:Ey1; [| done].
  destruct (take_rows y_test0 _) as [y2 | e] eqn:Ey2; [| done].
  cbn. destruct (reshape X1 _ _) as [M1 | e] eqn:EM1; [| done].
  cbn. destruct (reshape X2 _ _) as [M2 | e] eqn:EM2; [| done].
  cbn. unfold rows_match_labels. cbn. rewrite !length_fmap.
  apply reshape_returned in EM1 as [-> S1], EM2 as [-> S2].
  rewrite (mnist_shaped_size X1) in S1
    by (eapply take_rows_Forall; [exact Htrain | exact EX1]).
  rewrite (mnist_shaped_size X2) in S2
    by (eapply take_rows_Forall; [exact Htest | exact EX2]).
  apply take_rows_length in EX1, EX2, Ey1, Ey2.
  unfold len in S1, S2. split; lia.
Qed.

Lemma cancer_cell_labels {feature} (wisc : bunch feature) (g : rng) :
  Forall (fun t => t = 0 \/ t = 1) (target wisc) ->
  on_return (fun r => labels_are_spins r.1) (cancer_cell shuffle wisc g).
Proof.
  intros Htarget. unfold cancer_cell.
  destruct (shuffle _ g) as [idx g1].
  destruct (take_rows (data wisc) (slice_to _ _)) as [X1 | e]; [| done].
  destruct (take_rows (data wisc) (slice_from _ _)) as [X2 | e]; [| done].
  destruct (take_rows (target wisc) (slice_to _ _)) as [y1 | e] eqn:Ey1;
    [| done].
  destruct (take_rows (target wisc) (slice_from _ _)) as [y2 | e] eqn:Ey2;
    [| done].
  cbn. split; apply Forall_fmap.
  - eapply Forall_impl; [eapply take_rows_Forall, Ey1; exact Htarget |].
    intros t [-> | ->]; [by right | by left].
  - eapply Forall_impl; [eapply take_rows_Forall, Ey2; exact Htarget |].
    intros t [-> | ->]; [by right | by left].
Qed.

Lemma cancer_cell_rows {feature} (wisc : bunch feature) (g : rng) :
  on_return (fun r => rows_match_labels r.1) (cancer_cell shuffle wisc g).
Proof.
  unfold cancer_cell.
  destruct (shuffle _ g) as [idx g1].
  destruct (take_rows (data wisc) (slice_to _ _)) as [X1 | e] eqn:EX1;
    [| done].
  destruct (take_rows (data wisc) (slice_from _ _)) as [X2 | e] eqn:EX2;
    [| done].
  destruct (take_rows (target wisc) (slice_to _ _)) as [y1 | e] eqn:Ey1;
    [| done].
  destruct (take_rows (target wisc) (slice_from _ _)) as [y2 | e] eqn:Ey2;
    [| done].
  cbn. unfold rows_match_labels. cbn. rewrite !length_fmap.
  apply take_rows_length in EX1, EX2, Ey1, Ey2. split; congruence.
Qed.

End ExperimentProperties.

(** The cells do complete on data of the expected shape. *)

Lemma where_le_axis0_in_range (x : list image) bound :
  Forall (fun i => (i < length x)%nat) (where_le_axis0 x bound).
Proof.
  unfold where_le_axis0. apply Forall_concat, Forall_forall.
  intros l Hl. apply elem_of_lookup_imap_1 in Hl as (i & img & -> & Hi).
  apply Forall_replicate. by eapply lookup_lt_Some.
Qed.

Section CellsComplete.
Context {rng : Type}.
Variable shuffle : list nat -> rng -> list nat * rng.
Hypothesis shuffle_permutes : forall l g, (shuffle l g).1 ≡ₚ l.

Lemma mnist_cell_returns (x_train0 : list image) (y_train0 : list Z)
    (x_test0 : list image) (y_test0 : list Z) (g : rng) :
  mnist_shaped x_train0 -> mnist_shaped x_test0 ->
  (length x_train0 <= length y_train0)%nat ->
  (length x_test0 <= length y_test0)%nat ->
  (15000 <= len (where_le_axis0 x_train0 9)) ->
  (15000 <= len (where_le_axis0 x_test0 9)) ->
  exists r, mnist_cell shuffle x_train0 y_train0 x_test0 y_test0 g = Returned r.
Proof.
  intros Htrain Htest Hy1 Hy2 Hn1 Hn2. unfold mnist_cell.
  pose proof (shuffle_permutes (where_le_axis0 x_train0 9) g) as P1.
  destruct (shuffle _ g) as [idx_01 g1]. cbn in P1.
  pose proof (shuffle_permutes (where_le_axis0 x_test0 9) g1) as P2.
  destruct (shuffle _ g1) as [idx_02 g2]. cbn in P2.
  assert (R1 : Forall (fun i => (i < length x_train0)%nat) (slice_to 15000 idx_01)).
  { apply Forall_take. rewrite P1. apply where_le_axis0_in_range. }
  assert (R2 : Forall (fun i => (i < length x_test0)%nat) (slice_to 15000 idx_02)).
  { apply Forall_take. rewrite P2. apply where_le_axis0_in_range. }
  assert (L1 : length (slice_to 15000 idx_01) = Z.to_nat 15000).
  { unfold slice_to. cbn [Z.ltb Z.compare]. rewrite length_take, P1.
    unfold len in Hn1. lia. }
  assert (L2 : length (slice_to 15000 idx_02) = Z.to_nat 15000).
  { unfold slice_to. cbn [Z.ltb Z.compare]. rewrite length_take, P2.
    unfold len in Hn2. lia. }
  destruct (take_rows_in_range x_train0 _ R1) as [X1 EX1].
  destruct (take_rows_in_range x_test0 _ R2) as [X2 EX2].
  destruct (take_rows_in_range y_train0 (slice_to 15000 idx_01)) as [y1 Ey1].
  { eapply Forall_impl; [exact R1 |]. intros i Hi. cbn in Hi. lia. }
  destruct (take_rows_in_range y_test0 (slice_to 15000 idx_02)) as [y2 Ey2].
  { eapply Forall_impl; [exact R2 |]. intros i Hi. cbn in Hi. lia. }
  rewrite EX1, EX2, Ey1, Ey2. cbn.
  assert (S1 : len (concat (concat X1)) = 15000 * 784).
  { rewrite mnist_shaped_size
      by (eapply take_rows_Forall; [exact Htrain | exact EX1]).
    apply take_rows_length in EX1. unfold len. lia. }
  assert (S2 : len (concat (concat X2)) = 15000 * 784).
  { rewrite mnist_shaped_size
      by (eapply take_rows_Forall; [exact Htest | exact EX2]).
    apply take_rows_length in EX2. unfold len. lia. }
  unfold reshape. rewrite !decide_True by done. cbn. by eexists.
Qed.

Lemma cancer_cell_returns {feature} (wisc : bunch feature) (g : rng) :
  length (data wisc) = length (target wisc) ->
  exists r, cancer_cell shuffle wisc g = Returned r.
Proof.
  intros Hlen. unfold cancer_cell.
  pose proof (shuffle_permutes (seq 0 (length (target wisc))) g) as P.
  destruct (shuffle _ g) as [idx g1]. cbn in P.
  assert (R : Forall (fun i => (i < length (target wisc))%nat) idx).
  { rewrite P. apply Forall_seq. lia. }
  destruct (take_rows_in_range (data wisc) (slice_to (2 * len idx / 3) idx))
    as [X1 ->]; [rewrite Hlen; by apply Forall_take |].
  destruct (take_rows_in_range (data wisc) (slice_from (2 * len idx / 3) idx))
    as [X2 ->]; [rewrite Hlen; by apply Forall_drop |].
  destruct (take_rows_in_range (target wisc) (slice_to (2 * len idx / 3) idx))
    as [y1 ->]; [by apply Forall_take |].
  destruct (take_rows_in_range (target wisc) (slice_from (2 * len idx / 3) idx))
    as [y2 ->]; [by apply Forall_drop |].
  cbn. by eexists.
Qed.

End CellsComplete.
(** ** The stand-in libraries at work *)

Lemma demo_execution_completed : completed (demo_execution false).2.
Proof. apply (bool_decide_unpack _). by vm_compute. Qed.

Lemma demo_lib_imputer_is_inert {feature} offline :
  imputer_is_inert (demo_lib (feature := feature) offline).
Proof. intros w. by eexists. Qed.

(** On the stand-in libraries [train_model] returns its five classifiers
    after five fits. *)
Example demo_execution_returns :
  (demo_execution false).1 = (Returned [5; 6; 7; 8; 9]%nat, 5%nat).
Proof. by vm_compute. Qed.

(** Offline, the first fit through the sampler raises; [train_model] ends
    there with that exception, after the three fits that need no
    sampler. *)
Example demo_execution_offline :
  (demo_execution true).1 = (Raised "ConnectionError", 3%nat) /\
  last (op_of <$> (demo_execution true).2) = Some (OpFit QBoostClassifier true).
Proof. by vm_compute. Qed.

Lemma reversing_permutes l g : (reversing l g).1 ≡ₚ l.
Proof. apply reverse_Permutation. Qed.

(** The second experiment on 569 samples trains on 379 of them and tests
    on 190, as the notebook printed. *)
Example cancer_split_sizes :
  (fun r => (length (X_train r.1), length (X_test r.1)))
    <$> cancer_cell reversing (Bunch (replicate 569 [0]) (replicate 569 1)) ()
  = Returned (379%nat, 190%nat).
Proof. by vm_compute. Qed.

(** ** C1: how many classifiers are fit, and what is reported *)

(** C1, as the specification has it, fails: on the stand-in libraries a
    call of [train_model] in which no call raises does not fit four
    classifiers, one of them through the sampler. *)
Lemma four_fits_one_on_sampler_fails :
  let t := execution (demo_lib false)
             [[1; 2]; [3; 4]] [1; -1] [[5; 6]] [-1] 1%Q 0%nat in
  completed t.2 /\ ~ four_fits_one_on_sampler t.2.
Proof.
  split.
  - apply (bool_decide_unpack _). by vm_compute.
  - intros [H _]. vm_compute in H. discriminate.
Qed.

(** C1, amended: five classifiers, two of them through the sampler.
    Whatever the libraries do, the transformations and the fits that
    [train_model] makes are a beginning of [preprocessing_then_fits].
    When no call raises they are all of it, and:
    - the data is scaled and normalized first: the scaler is given
      [X_train], the normalizer what the scaler returned, and likewise
      for [X_test];
    - five classifier objects are fit, one [fit] each: AdaBoost, the
      ensemble of decision trees, the random forest, QBoost and
      QboostPlus; the last two are fit through the sampler, which is the
      embedding composite built on the D-Wave sampler;
    - each of the five is fit on the normalized training matrix with
      [y_train]; its prediction on that matrix is scored against
      [y_train], its prediction on the normalized test matrix against
      [y_test], and both scores are printed. *)
Theorem train_model_fits_five_classifiers {feature world}
    (lib : forall X : Type, call feature X -> world -> outcome X * world)
    (X_train0 : matrix feature) (y_train0 : labels)
    (X_test0 : matrix feature) (y_test0 : labels) (lmd : Q) (w : world) :
  let t := execution lib X_train0 y_train0 X_test0 y_test0 lmd w in
  data_ops t.2 `prefix_of` preprocessing_then_fits /\
  (completed t.2 ->
   data_ops t.2 = preprocessing_then_fits /\
   length (fits t.2) = 5%nat /\
   length (sampler_fits t.2) = 2%nat /\
   (exists dw emb,
      built DWaveSampler t.2 = [dw] /\
      (EmbeddingComposite, [VObj dw], ∅, emb) ∈ news t.2 /\
      (fun f => (f.1.1.1, f.1.2)) <$> sampler_fits t.2 =
        [(QBoostClassifier, Some emb); (QboostPlus, Some emb)]) /\
   exists scaler normalizer Xa Xtr Xc Xte,
     transforms t.2 =
       [(StandardScaler, scaler, X_train0, Xa);
        (Normalizer, normalizer, Xa, Xtr);
        (StandardScaler, scaler, X_test0, Xc);
        (Normalizer, normalizer, Xc, Xte)] /\
     Forall (fun f =>
         reports_accuracy t.2 Xtr y_train0 Xte y_test0 f.1.1.1 f.1.1.2)
       (fits t.2)).
Proof.
  intros t. subst t.
  apply (execution_always lib _ _ _ _ _ (fun res tr =>
    data_ops tr `prefix_of` preprocessing_then_fits /\
    (completed tr ->
     data_ops tr = preprocessing_then_fits /\
     length (fits tr) = 5%nat /\
     length (sampler_fits tr) = 2%nat /\
     (exists dw emb,
        built DWaveSampler tr = [dw] /\
        (EmbeddingComposite, [VObj dw], ∅, emb) ∈ news tr /\
        (fun f => (f.1.1.1, f.1.2)) <$> sampler_fits tr =
          [(QBoostClassifier, Some emb); (QboostPlus, Some emb)]) /\
     exists scaler normalizer Xa Xtr Xc Xte,
       transforms tr =
         [(StandardScaler, scaler, X_train0, Xa);
          (Normalizer, normalizer, Xa, Xtr);
          (StandardScaler, scaler, X_test0, Xc);
          (Normalizer, normalizer, Xc, Xte)] /\
       Forall (fun f =>
           reports_accuracy tr Xtr y_train0 Xte y_test0 f.1.1.1 f.1.1.2)
         (fits tr)))).
  every_answer ltac:(split;
    [apply begins_prefix; lazy; reflexivity
    | intros Hc; by apply not_completed in Hc]).
  split; [apply begins_prefix; lazy; reflexivity |].
  intros _. repeat match goal with u : ()%type |- _ => destruct u end.
  split; [lazy; reflexivity |].
  split; [lazy; reflexivity |].
  split; [lazy; reflexivity |].
  split.
  { eexists _, _. split; [lazy; reflexivity |].
    split; [| lazy; reflexivity].
    lazy [news omap new_of app list_omap]. find_event. }
  eexists _, _, _, _, _, _. split; [lazy; reflexivity |].
  lazy [fits omap fit_of app list_omap sampler_arg fst snd].
  repeat apply Forall_cons_2; [.. | apply Forall_nil_2];
    (do 6 eexists; lazy [app fst snd]; repeat split; find_event).
Qed.

(** On the stand-in libraries no call raises, five classifiers are fit,
    two of them through the sampler, and the accuracy of each is
    reported on the preprocessed matrices. *)
Lemma train_model_fits_five_classifiers_witness :
  completed (demo_execution false).2 /\
  length (fits (demo_execution false).2) = 5%nat /\
  length (sampler_fits (demo_execution false).2) = 2%nat /\
  exists Xtr Xte,
    Forall (fun f =>
        reports_accuracy (demo_execution false).2 Xtr [1; -1] Xte [-1]
          f.1.1.1 f.1.1.2)
      (fits (demo_execution false).2).
Proof.
  split; [exact demo_execution_completed |].
  pose proof (proj2 (train_model_fits_five_classifiers (demo_lib false)
    [[1; 2]; [3; 4]] [1; -1] [[5; 6]] [-1] 1%Q 0%nat)
    demo_execution_completed) as (_ & H5 & H2 & _ & H).
  split; [exact H5 |]. split; [exact H2 |].
  destruct H as (_ & _ & _ & Xtr & _ & Xte & _ & H).
  by exists Xtr, Xte.
Defined.

(** ** C2: [metric] *)

(** C2. [metric(y, y_pred)] is one call of [accuracy_score(y, y_pred)]
    and nothing else: its outcome is the outcome of that call, a value or
    an exception alike, so it handles no error.  On vectors of equal
    length, when [accuracy_score] answers with the fraction of the
    positions at which [y] and [y_pred] agree, that fraction is what
    [metric] returns. *)
Theorem metric_returns_accuracy {feature world}
    (lib : forall X : Type, call feature X -> world -> outcome X * world)
    (y y_pred : labels) (w : world) :
  let answer := lib Q (accuracy_score y y_pred) w in
  run lib (metric y y_pred) w =
    (answer.1, answer.2, [Called (accuracy_score y y_pred) answer.1]) /\
  (length y = length y_pred ->
   answer.1 = Returned (accuracy y y_pred) ->
   (run lib (metric y y_pred) w).1.1 = Returned (accuracy y y_pred)).
Proof.
  intros answer. subst answer.
  assert (Hrun : run lib (metric y y_pred) w =
    ((lib Q (accuracy_score y y_pred) w).1,
     (lib Q (accuracy_score y y_pred) w).2,
     [Called (accuracy_score y y_pred) (lib Q (accuracy_score y y_pred) w).1])).
  { unfold metric, do_call. cbn.
    by destruct (lib Q (accuracy_score y y_pred) w) as [[x | e] w']. }
  split; [exact Hrun |].
  intros Hlen Hlib. by rewrite Hrun.
Qed.

(** On the stand-in libraries two of four labels agree. *)
Lemma metric_returns_accuracy_witness :
  length [1; -1; 1; 1] = length [1; 1; 1; -1] /\
  accuracy [1; -1; 1; 1] [1; 1; 1; -1] = (2 # 4)%Q /\
  (run (demo_lib (feature := Z) false)
       (metric [1; -1; 1; 1] [1; 1; 1; -1]) 0%nat).1.1 = Returned (2 # 4)%Q.
Proof.
  split; [reflexivity |]. split; [reflexivity |].
  apply (proj2 (metric_returns_accuracy (demo_lib (feature := Z) false)
                  [1; -1; 1; 1] [1; 1; 1; -1] 0%nat) eq_refl eq_refl).
Defined.

(** ** C3: exceptions *)

(** C3. Neither [metric] nor [train_model] handles an exception: whatever
    the libraries do, an exception raised by a call ends the function on
    the spot (no event follows the call) and is its outcome, unchanged;
    an exception that comes out was raised by the last call made; and the
    fit through the remote sampler is attempted at most once per
    classifier, so a failure is not retried. *)
Theorem errors_propagate_uncaught {feature world}
    (lib : forall X : Type, call feature X -> world -> outcome X * world)
    (y y_pred : labels)
    (X_train0 : matrix feature) (y_train0 : labels)
    (X_test0 : matrix feature) (y_test0 : labels) (lmd : Q) (w : world) :
  let m := run lib (metric y y_pred) w in
  let t := execution lib X_train0 y_train0 X_test0 y_test0 lmd w in
  (propagates m /\ propagates t) /\
  (forall e, m.1.1 = Raised e ->
     m.2 = [Called (accuracy_score y y_pred) (Raised e)]) /\
  (forall e, t.1.1 = Raised e ->
     exists pre ev, t.2 = pre ++ [ev] /\ raised ev = Some e) /\
  (sampler_fit_attempts QBoostClassifier t.2 <= 1)%nat /\
  (sampler_fit_attempts QboostPlus t.2 <= 1)%nat.
Proof.
  intros m t. split; [split; apply run_propagates |].
  split.
  { intros e. subst m. unfold metric, do_call. cbn.
    destruct (lib _ (accuracy_score y y_pred) w) as [[x | e'] w']; cbn;
      by intros [= ->]. }
  split; [intros e; apply run_raised_by_call |].
  subst t.
  apply (execution_always lib _ _ _ _ _
    (fun _ tr => (sampler_fit_attempts QBoostClassifier tr <= 1)%nat /\
                 (sampler_fit_attempts QboostPlus tr <= 1)%nat)).
  every_answer ltac:(lazy; split; lia).
  lazy. split; lia.
Qed.

(** ** C4: the labels of the experiments *)

(** C4. In both experiments the labels handed to [train_model] are all
    [+1] or [-1]: in the first they are [2*(digit > 4) - 1], whatever the
    digits; in the second [2*target - 1] of a target of zeros and ones.
    This holds of what cell 14 and cell 21 compute whenever they
    complete, whatever the shuffles; cells 18 and 24 pass it on
    unchanged. *)
Theorem experiment_labels_are_spins {rng feature}
    (shuffle : list nat -> rng -> list nat * rng)
    (x_train0 : list image) (y_train0 : list Z)
    (x_test0 : list image) (y_test0 : list Z)
    (wisc : bunch feature) (g g' : rng) :
  Forall (fun t => t = 0 \/ t = 1) (target wisc) ->
  on_return (fun r =>
      labels_are_spins r.1.1 /\
      mnist_train r.1.1 =
        train_model (X_train r.1.1) (y_train r.1.1)
                    (X_test r.1.1) (y_test r.1.1) 1%Q)
    (mnist_cell shuffle x_train0 y_train0 x_test0 y_test0 g) /\
  on_return (fun r =>
      labels_are_spins r.1 /\
      cancer_train r.1 =
        train_model (X_train r.1) (y_train r.1)
                    (X_test r.1) (y_test r.1) 1%Q)
    (cancer_cell shuffle wisc g').
Proof.
  intros Htarget. split.
  - pose proof (mnist_cell_labels shuffle x_train0 y_train0 x_test0 y_test0 g) as H.
    destruct (mnist_cell _ _ _ _ _ _); [| done]. by split.
  - pose proof (cancer_cell_labels shuffle wisc g' Htarget) as H.
    destruct (cancer_cell _ _ _); [| done]. by split.
Qed.

(** Three samples with targets 0, 1, 1, shuffled to 1, 1, 0: the two
    training labels are [+1], the test label is [-1]. *)
Lemma experiment_labels_are_spins_witness :
  Forall (fun t => t = 0 \/ t = 1) [0; 1; 1] /\
  cancer_cell reversing (Bunch [[10]; [20]; [30]] [0; 1; 1]) () =
    Returned (Dataset [[30]; [20]] [1; 1] [[10]] [-1], ()) /\
  on_return (fun r => labels_are_spins r.1)
    (cancer_cell reversing (Bunch [[10]; [20]; [30]] [0; 1; 1]) ()).
Proof.
  assert (H01 : Forall (fun t => t = 0 \/ t = 1) [0; 1; 1])
    by (repeat apply Forall_cons_2; [by left | by right | by right | done]).
  split; [exact H01 |]. split; [by vm_compute |].
  pose proof (proj2 (experiment_labels_are_spins reversing
    [] [] [] [] (Bunch [[10]; [20]; [30]] [0; 1; 1]) () () H01)) as H.
  destruct (cancer_cell _ _ _); [| done]. apply H.
Defined.

(** ** C5: the rows and the labels of the experiments *)

(** C5. In both experiments the feature matrix handed to [train_model]
    has as many rows as the label vector has entries, for the training
    pair and for the test pair: in the first experiment on images of 28
    by 28 pixels, in the second on any data.  This holds of what cell 14
    and cell 21 compute whenever they complete, whatever the shuffles. *)
Theorem experiment_rows_match_labels {rng feature}
    (shuffle : list nat -> rng -> list nat * rng)
    (x_train0 : list image) (y_train0 : list Z)
    (x_test0 : list image) (y_test0 : list Z)
    (wisc : bunch feature) (g g' : rng) :
  mnist_shaped x_train0 -> mnist_shaped x_test0 ->
  on_return (fun r => rows_match_labels r.1.1)
    (mnist_cell shuffle x_train0 y_train0 x_test0 y_test0 g) /\
  on_return (fun r => rows_match_labels r.1)
    (cancer_cell shuffle wisc g').
Proof.
  intros Htrain Htest. split.
  - by apply mnist_cell_rows.
  - apply cancer_cell_rows.
Qed.

Lemma blank_images_shaped : mnist_shaped blank_images.
Proof.
  apply Forall_replicate. split; [done |]. by apply Forall_replicate.
Qed.

(** On twenty blank images cell 14 completes, with as many rows as
    labels. *)
Lemma experiment_rows_match_labels_witness :
  mnist_shaped blank_images /\
  exists r,
    mnist_cell reversing blank_images (replicate 20 7)
      blank_images (replicate 20 3) () = Returned r /\
    rows_match_labels r.1.1.
Proof.
  split; [exact blank_images_shaped |].
  destruct (mnist_cell_returns reversing reversing_permutes
    blank_images (replicate 20 7) blank_images (replicate 20 3) ()
    blank_images_shaped blank_images_shaped) as [r Hr];
    [done | done | by vm_compute | by vm_compute |].
  exists r. split; [exact Hr |].
  pose proof (proj1 (experiment_rows_match_labels (feature := Z) reversing
    blank_images (replicate 20 7) blank_images (replicate 20 3)
    (Bunch [] []) () () blank_images_shaped blank_images_shaped)) as H.
  by rewrite Hr in H.
Defined.

(** ** C6: what [train_model] returns *)

(** C6. When no call raises, [train_model] returns, and what it returns
    is a list: the five classifier objects in training order, each the
    object its constructor returned and the receiver of one [fit], in
    the order of the fits.  Nothing else is returned, and a list is
    returned only when no call raised. *)
Theorem train_model_returns_fitted_classifiers {feature world}
    (lib : forall X : Type, call feature X -> world -> outcome X * world)
    (X_train0 : matrix feature) (y_train0 : labels)
    (X_test0 : matrix feature) (y_test0 : labels) (lmd : Q) (w : world) :
  let t := execution lib X_train0 y_train0 X_test0 y_test0 lmd w in
  (completed t.2 ->
     exists clfs, t.1.1 = Returned clfs /\
       clfs = (fun f => f.1.1.2) <$> fits t.2 /\
       (fun f => f.1.1.1) <$> fits t.2 = classifiers.*1 /\
       clfs = classifiers.*1 ≫= fun c => built c t.2) /\
  (forall clfs, t.1.1 = Returned clfs -> completed t.2).
Proof.
  intros t. subst t. split; [| intros clfs; apply returned_completed].
  apply (execution_always lib _ _ _ _ _ (fun res tr =>
    completed tr ->
      exists clfs, res = Returned clfs /\
        clfs = (fun f => f.1.1.2) <$> fits tr /\
        (fun f => f.1.1.1) <$> fits tr = classifiers.*1 /\
        clfs = classifiers.*1 ≫= fun c => built c tr)).
  every_answer ltac:(intros Hc; by apply not_completed in Hc).
  intros _. eexists. split; [reflexivity |].
  repeat split; lazy; reflexivity.
Qed.

(** On the stand-in libraries [train_model] returns the five classifier
    objects. *)
Lemma train_model_returns_fitted_classifiers_witness :
  completed (demo_execution false).2 /\
  (demo_execution false).1.1 = Returned [5; 6; 7; 8; 9]%nat.
Proof.
  split; [exact demo_execution_completed |].
  destruct (proj1 (train_model_returns_fitted_classifiers (demo_lib false)
    [[1; 2]; [3; 4]] [1; -1] [[5; 6]] [-1] 1%Q 0%nat)
    demo_execution_completed) as (clfs & Hres & Hclfs & _).
  rewrite Hclfs in Hres. exact Hres.
Defined.

(** ** C7: the order of the calls *)

(** C7, as the specification has it, fails: [train_model] repeats
    calls.  On the stand-in libraries the score of the first
    classifier's training prediction is computed after the predictions
    (event 17) and again for the table (event 63), by the same call. *)
Lemma accuracy_calls_are_repeated :
  completed (demo_execution false).2 /\
  ~ no_repeated_calls (demo_execution false).2.
Proof.
  split; [exact demo_execution_completed |].
  intros H.
  assert (Hi : (demo_execution false).2 !! 17%nat
    = Some (Called (accuracy_score [1; -1] [1; 1]) (Returned (1 # 2)%Q)))
    by (vm_compute; reflexivity).
  assert (Hj : (demo_execution false).2 !! 63%nat
    = Some (Called (accuracy_score [1; -1] [1; 1]) (Returned (1 # 2)%Q)))
    by (vm_compute; reflexivity).
  by specialize (H _ _ _ _ _ _ Hi Hj).
Qed.

(** The table scores what was scored after the predictions, once
    more. *)
Lemma scored_in_table_again {A} (y_train y_test : A) ps :
  scored_in_table y_train y_test ps ≡ₚ scored_after y_train y_test ps.
Proof.
  unfold scored_in_table, scored_after.
  induction ps as [| p ps IH]; [done |].
  cbn. constructor. rewrite <- IH.
  by rewrite Permutation_middle.
Qed.

(** C7, amended. [train_model] makes its calls one after the other in
    one fixed order.  Whatever the libraries do, the calls made are a
    beginning of [schedule], and a call that raises is the last one:
    nothing is retried or made after it.  When no call raises they are
    all of [schedule], and:
    - the preprocessing comes first: the scaler is given [X_train], the
      normalizer what the scaler returned, and likewise for [X_test];
    - then for the five classifiers in turn one [fit] on the normalized
      training matrix, followed by the prediction of the same object on
      that matrix and its prediction on the normalized test matrix;
    - the sampler, the embedding composite built on the D-Wave sampler,
      is handed to exactly two calls, the one [fit] of QBoost and the
      one [fit] of QboostPlus;
    - the accuracy computations are the calls that are repeated: what
      is scored after the predictions is scored once more for the
      table.
    A call has returned before the next one is made: [run] makes them
    one at a time. *)
Theorem train_model_runs_in_fixed_order {feature world}
    (lib : forall X : Type, call feature X -> world -> outcome X * world)
    (X_train0 : matrix feature) (y_train0 : labels)
    (X_test0 : matrix feature) (y_test0 : labels) (lmd : Q) (w : world) :
  let t := execution lib X_train0 y_train0 X_test0 y_test0 lmd w in
  op_of <$> t.2 `prefix_of` schedule /\
  propagates t /\
  (completed t.2 ->
     op_of <$> t.2 = schedule /\
     sampler_fit_attempts QBoostClassifier t.2 = 1%nat /\
     sampler_fit_attempts QboostPlus t.2 = 1%nat /\
     (exists clfs dw emb scaler normalizer Xa Xtr Xc Xte,
        t.1.1 = Returned clfs /\
        built DWaveSampler t.2 = [dw] /\
        built EmbeddingComposite t.2 = [emb] /\
        transforms t.2 =
          [(StandardScaler, scaler, X_train0, Xa);
           (Normalizer, normalizer, Xa, Xtr);
           (StandardScaler, scaler, X_test0, Xc);
           (Normalizer, normalizer, Xc, Xte)] /\
        uses t.2 =
          [(OpFitTransform StandardScaler, scaler, X_train0);
           (OpFitTransform Normalizer, normalizer, Xa);
           (OpFitTransform StandardScaler, scaler, X_test0);
           (OpFitTransform Normalizer, normalizer, Xc)]
          ++ (zip classifiers clfs ≫= fun co =>
                [(OpFit co.1.1 co.1.2, co.2, Xtr);
                 (OpPredict co.1.1, co.2, Xtr);
                 (OpPredict co.1.1, co.2, Xte)]) /\
        handed t.2 =
          [(OpNew EmbeddingComposite, [VObj dw]);
           (OpFit QBoostClassifier true, [VObj emb]);
           (OpNew QboostPlus, [VObjs (take 4 clfs)]);
           (OpFit QboostPlus true, [VObj emb])]) /\
     let ps := pair_up (predicted t.2) in
     score_inputs t.2 =
       scored_after y_train0 y_test0 ps ++ scored_in_table y_train0 y_test0 ps /\
     scored_in_table y_train0 y_test0 ps ≡ₚ scored_after y_train0 y_test0 ps).
Proof.
  intros t. subst t.
  split; [| split; [apply run_propagates |]].
  - apply (execution_always lib _ _ _ _ _ (fun res tr =>
      op_of <$> tr `prefix_of` schedule)).
    every_answer ltac:(apply begins_prefix; lazy; reflexivity).
    apply begins_prefix; lazy; reflexivity.
  - apply (execution_always lib _ _ _ _ _ (fun res tr =>
      completed tr ->
      op_of <$> tr = schedule /\
      sampler_fit_attempts QBoostClassifier tr = 1%nat /\
      sampler_fit_attempts QboostPlus tr = 1%nat /\
      (exists clfs dw emb scaler normalizer Xa Xtr Xc Xte,
         res = Returned clfs /\
         built DWaveSampler tr = [dw] /\
         built EmbeddingComposite tr = [emb] /\
         transforms tr =
           [(StandardScaler, scaler, X_train0, Xa);
            (Normalizer, normalizer, Xa, Xtr);
            (StandardScaler, scaler, X_test0, Xc);
            (Normalizer, normalizer, Xc, Xte)] /\
         uses tr =
           [(OpFitTransform StandardScaler, scaler, X_train0);
            (OpFitTransform Normalizer, normalizer, Xa);
            (OpFitTransform StandardScaler, scaler, X_test0);
            (OpFitTransform Normalizer, normalizer, Xc)]
           ++ (zip classifiers clfs ≫= fun co =>
                 [(OpFit co.1.1 co.1.2, co.2, Xtr);
                  (OpPredict co.1.1, co.2, Xtr);
                  (OpPredict co.1.1, co.2, Xte)]) /\
         handed tr =
           [(OpNew EmbeddingComposite, [VObj dw]);
            (OpFit QBoostClassifier true, [VObj emb]);
            (OpNew QboostPlus, [VObjs (take 4 clfs)]);
            (OpFit QboostPlus true, [VObj emb])]) /\
      let ps := pair_up (predicted tr) in
      score_inputs tr =
        scored_after y_train0 y_test0 ps
        ++ scored_in_table y_train0 y_test0 ps /\
      scored_in_table y_train0 y_test0 ps
        ≡ₚ scored_after y_train0 y_test0 ps)).
    every_answer ltac:(intros Hc; by apply not_completed in Hc).
    intros _. split; [lazy; reflexivity |].
    split; [lazy; reflexivity |]. split; [lazy; reflexivity |].
    split.
    + eexists _, _, _, _, _, _, _, _, _. split; [reflexivity |].
      repeat split; lazy; reflexivity.
    + split; [lazy; reflexivity | apply scored_in_table_again].
Qed.

(** On the stand-in libraries the calls made are the whole schedule, and
    the sampler is handed to the two fits. *)
Lemma train_model_runs_in_fixed_order_witness :
  completed (demo_execution false).2 /\
  op_of <$> (demo_execution false).2 = schedule /\
  sampler_fit_attempts QBoostClassifier (demo_execution false).2 = 1%nat /\
  sampler_fit_attempts QboostPlus (demo_execution false).2 = 1%nat.
Proof.
  split; [exact demo_execution_completed |].
  pose proof (proj2 (proj2 (train_model_runs_in_fixed_order (demo_lib false)
    [[1; 2]; [3; 4]] [1; -1] [[5; 6]] [-1] 1%Q 0%nat))
    demo_execution_completed) as (Hs & H4 & H5 & _).
  by repeat split.
Defined.

(** ** C8: the token *)

(** C8. Whatever the arguments of [train_model] and whatever the
    libraries do, the D-Wave sampler is constructed once, as the first
    call, with no positional argument and the keywords [token] and
    [endpoint] bound to the notebook's globals [sapi_token] and [url];
    [sapi_token] is the string written in cell 4.  No parameter of
    [train_model] occurs in the construction. *)
Theorem sampler_token_is_hardcoded {feature world}
    (lib : forall X : Type, call feature X -> world -> outcome X * world)
    (X_train0 : matrix feature) (y_train0 : labels)
    (X_test0 : matrix feature) (y_test0 : labels) (lmd : Q) (w : world) :
  let t := execution lib X_train0 y_train0 X_test0 y_test0 lmd w in
  let kwargs : gmap string pyval :=
    <["token" := VStr sapi_token]> (<["endpoint" := VStr url]> ∅) in
  sapi_token = "CDL8-df1de1d5d76560ee73a82ffca3833a1a444536d3" /\
  kwargs !! "token" = Some (VStr sapi_token) /\
  omap (attempted_new_of DWaveSampler) t.2 = [([], kwargs)] /\
  (exists r, head t.2 = Some (Called (new DWaveSampler [] kwargs) r)).
Proof.
  intros t kwargs. subst t.
  split; [reflexivity |]. split; [by vm_compute |].
  apply (execution_always lib _ _ _ _ _ (fun res tr =>
    omap (attempted_new_of DWaveSampler) tr = [([], kwargs)] /\
    (exists r, head tr = Some (Called (new DWaveSampler [] kwargs) r)))).
  every_answer ltac:(split; [reflexivity | eexists; reflexivity]).
  split; [reflexivity | eexists; reflexivity].
Qed.

(** ** C9: the preprocessing of the test matrix *)

(** C9. The test matrix is preprocessed by fitting the scaler and the
    normalizer anew on [X_test] itself.  So, with transformers that fit
    anew, two calls of [train_model] that agree on [X_test] preprocess it
    to the same matrix, whatever their training data, their labels,
    their [lmd] and the state of the libraries: the normalized scaled
    [X_test].  In each call the scaler is given [X_test], the normalizer
    what the scaler returned, and every second prediction is asked on the
    result. *)
Theorem test_preprocessing_ignores_training_data {feature world}
    (lib : forall X : Type, call feature X -> world -> outcome X * world)
    (scale normalize : matrix feature -> matrix feature)
    (lib_refits : respects lib (refits scale normalize))
    (X_test0 : matrix feature)
    (X_train1 : matrix feature) (y_train1 y_test1 : labels) (lmd1 : Q) (w1 : world)
    (X_train2 : matrix feature) (y_train2 y_test2 : labels) (lmd2 : Q) (w2 : world) :
  let t1 := execution lib X_train1 y_train1 X_test0 y_test1 lmd1 w1 in
  let t2 := execution lib X_train2 y_train2 X_test0 y_test2 lmd2 w2 in
  forall M1 M2,
    preprocessed_test t1.2 = Some M1 ->
    preprocessed_test t2.2 = Some M2 ->
    M1 = M2 /\ M1 = normalize (scale X_test0) /\
    exists scaler normalizer Xa Xb Xc,
      transforms t1.2 =
        [(StandardScaler, scaler, X_train1, Xa);
         (Normalizer, normalizer, Xa, Xb);
         (StandardScaler, scaler, X_test0, Xc);
         (Normalizer, normalizer, Xc, M1)] /\
      predict_inputs t1.2 `prefix_of` concat (replicate 5 [Xb; M1]).
Proof.
  intros t1 t2 M1 M2 H1 H2.
  destruct (preprocessed_test_of_X_test lib scale normalize lib_refits
              X_train1 y_train1 X_test0 y_test1 lmd1 w1 M1 H1) as [E1 S1].
  destruct (preprocessed_test_of_X_test lib scale normalize lib_refits
              X_train2 y_train2 X_test0 y_test2 lmd2 w2 M2 H2) as [E2 _].
  split; [congruence |]. by split.
Qed.

(** Two calls on the stand-in libraries with different training data,
    labels, [lmd] and states, and the same test matrix. *)
Lemma test_preprocessing_ignores_training_data_witness :
  let t1 := execution (demo_lib false)
              [[1; 2]; [3; 4]] [1; -1] [[5; 6]; [7; 8]] [-1; 1] 1%Q 0%nat in
  let t2 := execution (demo_lib false)
              [[9; 9]] [1] [[5; 6]; [7; 8]] [1; 1] (1 # 2)%Q 7%nat in
  respects (demo_lib (feature := Z) false) (refits demo_scale demo_normalize) /\
  preprocessed_test t1.2 = Some [[8; 7]; [6; 5]] /\
  preprocessed_test t2.2 = Some [[8; 7]; [6; 5]] /\
  [[8; 7]; [6; 5]] = demo_normalize (demo_scale [[5; 6]; [7; 8]]).
Proof.
  intros t1 t2.
  assert (H1 : preprocessed_test t1.2 = Some [[8; 7]; [6; 5]]) by by vm_compute.
  assert (H2 : preprocessed_test t2.2 = Some [[8; 7]; [6; 5]]) by by vm_compute.
  split; [apply demo_lib_refits |]. split; [exact H1 |]. split; [exact H2 |].
  apply (test_preprocessing_ignores_training_data (demo_lib false)
    demo_scale demo_normalize (demo_lib_refits false) [[5; 6]; [7; 8]]
    [[1; 2]; [3; 4]] [1; -1] [-1; 1] 1%Q 0%nat
    [[9; 9]] [1] [1; 1] (1 # 2)%Q 7%nat _ _ H1 H2).
Defined.

(** ** C10: the imputer *)

(** C10. The imputer is constructed and never used.  Whatever the
    libraries do, no method is ever called on an imputer, and the only
    transformations are the scaler's followed by the normalizer's, on the
    training and on the test matrix.  When constructing an imputer
    returns and changes nothing outside the notebook, [train_model] ends
    with the same outcome and in the same state of the libraries as
    [train_model_without_imputer], after the same calls and prints but
    for the construction itself. *)
Theorem imputer_is_never_used {feature world}
    (lib : forall X : Type, call feature X -> world -> outcome X * world)
    (X_train0 : matrix feature) (y_train0 : labels)
    (X_test0 : matrix feature) (y_test0 : labels) (lmd : Q) (w : world) :
  let t := execution lib X_train0 y_train0 X_test0 y_test0 lmd w in
  let t' := run lib (train_model_without_imputer
                       X_train0 y_train0 X_test0 y_test0 lmd) w in
  Forall (fun ev => receiver_class ev <> Some Imputer) t.2 /\
  (fun x => x.1.1.1) <$> transforms t.2 `prefix_of`
    [StandardScaler; Normalizer; StandardScaler; Normalizer] /\
  (imputer_is_inert lib ->
     t.1 = t'.1 /\
     filter (fun ev => op_of ev <> OpNew Imputer) t.2 = t'.2).
Proof.
  intros t t'. subst t t'. split; [| split].
  - apply (execution_always lib _ _ _ _ _
      (fun _ tr => Forall (fun ev => receiver_class ev <> Some Imputer) tr)).
    every_answer ltac:(apply (bool_decide_unpack _); lazy; reflexivity).
    apply (bool_decide_unpack _); lazy; reflexivity.
  - apply (execution_always lib _ _ _ _ _
      (fun _ tr => (fun x => x.1.1.1) <$> transforms tr `prefix_of`
         [StandardScaler; Normalizer; StandardScaler; Normalizer])).
    every_answer ltac:(eexists; lazy; reflexivity).
    eexists; lazy; reflexivity.
  - intros Hinert. unfold execution, train_model, train_model_without_imputer.
    cbn [run py_bind_def mbind py_bind do_call print].
    destruct (lib obj _ w) as [[dw | e] w1]; [| done].
    cbn [run py_bind_def mbind py_bind do_call print].
    destruct (lib obj _ w1) as [[emb | e] w2]; [| done].
    cbn [run py_bind_def mbind py_bind do_call print].
    destruct (Hinert w2) as [o ->].
    pose proof (body_builds_no_imputer lib emb
      X_train0 y_train0 X_test0 y_test0 lmd w2) as Hbody.
    destruct (run lib (train_model_body emb
      X_train0 y_train0 X_test0 y_test0 lmd) w2) as [[res w3] tr].
    cbn in *. split; [done |].
    rewrite (filter_all _ _ Hbody).
    repeat case_decide; done.
Qed.

(** On the stand-in libraries, with and without the imputer. *)
Lemma imputer_is_never_used_witness :
  imputer_is_inert (demo_lib (feature := Z) false) /\
  (demo_execution false).1 =
    (run (demo_lib false) (train_model_without_imputer
       [[1; 2]; [3; 4]] [1; -1] [[5; 6]] [-1] 1%Q) 0%nat).1.
Proof.
  split; [apply demo_lib_imputer_is_inert |].
  apply (proj2 (proj2 (imputer_is_never_used (demo_lib false)
    [[1; 2]; [3; 4]] [1; -1] [[5; 6]] [-1] 1%Q 0%nat))
    (demo_lib_imputer_is_inert false)).
Defined.

(** * Part III: more of the notebook *)

(** ** [train_model]: what the ensemble is built from *)

(** X1. When no call raises, [train_model] returns five objects; each of
    them was constructed and then fit once, in the order of the returned
    list, and nothing else was constructed as a classifier or fit.  The
    ensemble [QboostPlus] is constructed once, from the list of the four
    classifiers fit before it, in that order. *)
Theorem qboost_plus_combines_fitted_classifiers {feature world}
    (lib : forall X : Type, call feature X -> world -> outcome X * world)
    (X_train0 : matrix feature) (y_train0 : labels)
    (X_test0 : matrix feature) (y_test0 : labels) (lmd : Q) (w : world) :
  let t := execution lib X_train0 y_train0 X_test0 y_test0 lmd w in
  completed t.2 ->
  exists clfs,
    t.1.1 = Returned clfs /\
    length clfs = 5%nat /\
    lifecycle t.2 =
      (zip classifiers clfs ≫= fun co =>
         [(OpNew co.1.1, co.2); (OpFit co.1.1 co.1.2, co.2)]) /\
    omap (attempted_new_of QboostPlus) t.2 = [([VObjs (take 4 clfs)], ∅)].
Proof.
  intros t. subst t.
  apply (execution_always lib _ _ _ _ _ (fun res tr =>
    completed tr ->
    exists clfs,
      res = Returned clfs /\
      length clfs = 5%nat /\
      lifecycle tr =
        (zip classifiers clfs ≫= fun co =>
           [(OpNew co.1.1, co.2); (OpFit co.1.1 co.1.2, co.2)]) /\
      omap (attempted_new_of QboostPlus) tr = [([VObjs (take 4 clfs)], ∅)])).
  every_answer ltac:(intros Hc; by apply not_completed in Hc).
  intros _. eexists. split; [reflexivity |].
  split; [reflexivity |]. split; lazy; reflexivity.
Qed.

(** On the stand-in libraries the ensemble is built from the objects 5
    to 8. *)
Lemma qboost_plus_combines_fitted_classifiers_witness :
  completed (demo_execution false).2 /\
  omap (attempted_new_of QboostPlus) (demo_execution false).2 =
    [([VObjs [5; 6; 7; 8]%nat], ∅)].
Proof.
  split; [exact demo_execution_completed |].
  destruct (qboost_plus_combines_fitted_classifiers (demo_lib false)
    [[1; 2]; [3; 4]] [1; -1] [[5; 6]] [-1] 1%Q 0%nat
    demo_execution_completed) as (clfs & Hres & _ & _ & Hnew).
  pose proof demo_execution_returns as E. unfold demo_execution in *.
  rewrite E in Hres. injection Hres as <-. exact Hnew.
Defined.

(** ** [train_model]: what the fits are given *)

(** The keywords of a fit through the sampler: [lmd=lmd, **DW_PARAMS].
    [DW_PARAMS] has no key [lmd], so the call is well formed and every
    entry of [DW_PARAMS] reaches the fit. *)
Lemma sampler_keywords (lmd : Q) :
  let K : gmap string pyval := <["lmd" := VFloat lmd]> DW_PARAMS in
  K !! "lmd" = Some (VFloat lmd) /\
  (forall k v, DW_PARAMS !! k = Some v -> K !! k = Some v) /\
  dom K =
    {["lmd"; "num_reads"; "auto_scale"; "num_spin_reversal_transforms";
      "postprocess"]}.
Proof.
  intros K. subst K. split; [apply lookup_insert_eq |]. split.
  - intros k v Hk. destruct (decide (k = "lmd")) as [-> | Hne].
    + by vm_compute in Hk.
    + by rewrite lookup_insert_ne.
  - unfold DW_PARAMS. rewrite !dom_insert_L, dom_empty_L. set_solver.
Qed.

(** X2. Whatever the libraries do, every fit that [train_model] attempts
    is given the training labels it was called with.  A fit of
    [QBoostClassifier] or of [QboostPlus] is also given a sampler and
    the keywords [lmd=lmd, **DW_PARAMS], in which [lmd] is the argument
    of [train_model] and the four entries of [DW_PARAMS] are kept; the
    other fits are given nothing more. *)
Theorem lmd_reaches_the_sampler_fits {feature world}
    (lib : forall X : Type, call feature X -> world -> outcome X * world)
    (X_train0 : matrix feature) (y_train0 : labels)
    (X_test0 : matrix feature) (y_test0 : labels) (lmd : Q) (w : world) :
  let t := execution lib X_train0 y_train0 X_test0 y_test0 lmd w in
  let K : gmap string pyval := <["lmd" := VFloat lmd]> DW_PARAMS in
  Forall (fun f =>
      f.1.1.2 = y_train0 /\
      if uses_sampler f.1.1.1
      then is_Some (sampler_arg f.1.2) /\ f.2 = K
      else f.1.2 = [] /\ f.2 = ∅)
    (attempted_fits t.2) /\
  K !! "lmd" = Some (VFloat lmd) /\
  (forall k v, DW_PARAMS !! k = Some v -> K !! k = Some v) /\
  dom K = {["lmd"; "num_reads"; "auto_scale";
            "num_spin_reversal_transforms"; "postprocess"]}.
Proof.
  intros t K. subst t. split; [| apply sampler_keywords].
  apply (execution_always lib _ _ _ _ _ (fun res tr =>
    Forall (fun f =>
        f.1.1.2 = y_train0 /\
        if uses_sampler f.1.1.1
        then is_Some (sampler_arg f.1.2) /\ f.2 = K
        else f.1.2 = [] /\ f.2 = ∅)
      (attempted_fits tr))).
  every_answer ltac:(
    lazy [attempted_fits omap list_omap app];
    repeat apply Forall_cons_2; try apply Forall_nil_2;
    cbn [fst snd uses_sampler sampler_arg]; by eauto).
  lazy [attempted_fits omap list_omap app].
  repeat apply Forall_cons_2; try apply Forall_nil_2;
    cbn [fst snd uses_sampler sampler_arg]; by eauto.
Qed.

(** ** [train_model]: when the sampler fails *)

(** X3. When the construction of [DWaveSampler] raises, nothing else is
    called and nothing is printed.  When the fit of [QBoostClassifier]
    raises, [train_model] raises the same exception: the three
    classifiers fit by then are not returned, and the six scores printed
    for them are all that is reported. *)
Theorem sampler_failure_loses_the_results {feature world}
    (lib : forall X : Type, call feature X -> world -> outcome X * world)
    (X_train0 : matrix feature) (y_train0 : labels)
    (X_test0 : matrix feature) (y_test0 : labels) (lmd : Q) (w : world) :
  let t := execution lib X_train0 y_train0 X_test0 y_test0 lmd w in
  let connect :=
    new DWaveSampler []
      (<["token" := VStr sapi_token]> (<["endpoint" := VStr url]> ∅)) in
  (forall e w', lib obj connect w = (Raised e, w') ->
     t = (Raised e, w', [Called connect (Raised e)])) /\
  (forall ev e,
     last t.2 = Some ev -> op_of ev = OpFit QBoostClassifier true ->
     raised ev = Some e ->
     t.1.1 = Raised e /\
     (fun f => f.1.1.1) <$> fits t.2 =
       [AdaBoostClassifier; WeakClassifiers; RandomForestClassifier] /\
     length (score_results t.2) = 6%nat /\
     printed_scores t.2 = score_results t.2).
Proof.
  intros t connect. subst t connect. split.
  - intros e w' Hlib. unfold execution, train_model.
    cbn [run py_bind_def mbind py_bind do_call]. by rewrite Hlib.
  - apply (execution_always lib _ _ _ _ _ (fun res tr =>
      forall ev e,
        last tr = Some ev -> op_of ev = OpFit QBoostClassifier true ->
        raised ev = Some e ->
        res = Raised e /\
        (fun f => f.1.1.1) <$> fits tr =
          [AdaBoostClassifier; WeakClassifiers; RandomForestClassifier] /\
        length (score_results tr) = 6%nat /\
        printed_scores tr = score_results tr)).
    every_answer ltac:(
      intros ev e' Hlast Hop Hr; lazy [last app] in Hlast;
      injection Hlast as <-; cbn [op_of op_of_call] in Hop;
      first
        [ discriminate Hop
        | cbn [raised] in Hr; injection Hr as <-;
          repeat split; lazy; reflexivity ]).
    intros ev e' Hlast Hop Hr; lazy [last app] in Hlast.
    injection Hlast as <-. discriminate Hop.
Qed.

(** On the stand-in libraries without a connection the fit through the
    sampler raises after six scores. *)
Lemma sampler_failure_loses_the_results_witness :
  (demo_execution true).1.1 = Raised "ConnectionError" /\
  length (score_results (demo_execution true).2) = 6%nat /\
  printed_scores (demo_execution true).2 = score_results (demo_execution true).2.
Proof.
  assert (Hr : last (demo_execution true).2 ≫= raised = Some "ConnectionError")
    by by vm_compute.
  destruct demo_execution_offline as [_ Hop]. rewrite fmap_last in Hop.
  destruct (last (demo_execution true).2) as [ev |] eqn:Hlast; [| done].
  cbn in Hop, Hr. injection Hop as Hop.
  destruct (proj2 (sampler_failure_loses_the_results (demo_lib true)
    [[1; 2]; [3; 4]] [1; -1] [[5; 6]] [-1] 1%Q 0%nat) ev "ConnectionError"
    Hlast Hop Hr) as (H1 & _ & H6 & Hp).
  by repeat split.
Defined.

(** ** [train_model]: what is printed *)

(** X4. Whatever the libraries do, the floats printed so far are the
    first of the scores computed so far, in order.  When no call raises
    all twenty scores are printed, and what happens to the predictions
    is [reporting]: each of the five classifiers predicts on the
    normalized training matrix and then on the normalized test matrix,
    the first prediction is scored against [y_train] and the score
    printed, then the second against [y_test] and the score printed,
    all before the next classifier predicts; the table then scores the
    same ten predictions once more, the training row first. *)
Theorem every_score_is_printed {feature world}
    (lib : forall X : Type, call feature X -> world -> outcome X * world)
    (X_train0 : matrix feature) (y_train0 : labels)
    (X_test0 : matrix feature) (y_test0 : labels) (lmd : Q) (w : world) :
  let t := execution lib X_train0 y_train0 X_test0 y_test0 lmd w in
  printed_scores t.2 `prefix_of` score_results t.2 /\
  (completed t.2 ->
     let ps := pair_up (predicted t.2) in
     printed_scores t.2 = score_results t.2 /\
     length ps = 5%nat /\
     length (score_results t.2) = 20%nat /\
     score_inputs t.2 =
       (ps ≫= fun p => [(y_train0, p.1); (y_test0, p.2)])
       ++ ((fun p => (y_train0, p.1)) <$> ps)
       ++ ((fun p => (y_test0, p.2)) <$> ps) /\
     exists scaler normalizer Xa Xtr Xc Xte,
       transforms t.2 =
         [(StandardScaler, scaler, X_train0, Xa);
          (Normalizer, normalizer, Xa, Xtr);
          (StandardScaler, scaler, X_test0, Xc);
          (Normalizer, normalizer, Xc, Xte)] /\
       timeline t.2 =
         reporting Xtr y_train0 Xte y_test0 ps (score_results t.2)).
Proof.
  intros t. subst t.
  apply (execution_always lib _ _ _ _ _ (fun res tr =>
    printed_scores tr `prefix_of` score_results tr /\
    (completed tr ->
       let ps := pair_up (predicted tr) in
       printed_scores tr = score_results tr /\
       length ps = 5%nat /\
       length (score_results tr) = 20%nat /\
       score_inputs tr =
         (ps ≫= fun p => [(y_train0, p.1); (y_test0, p.2)])
         ++ ((fun p => (y_train0, p.1)) <$> ps)
         ++ ((fun p => (y_test0, p.2)) <$> ps) /\
       exists scaler normalizer Xa Xtr Xc Xte,
         transforms tr =
           [(StandardScaler, scaler, X_train0, Xa);
            (Normalizer, normalizer, Xa, Xtr);
            (StandardScaler, scaler, X_test0, Xc);
            (Normalizer, normalizer, Xc, Xte)] /\
         timeline tr =
           reporting Xtr y_train0 Xte y_test0 ps (score_results tr)))).
  every_answer ltac:(split;
    [eexists; lazy; reflexivity
    | intros Hc; by apply not_completed in Hc]).
  split; [eexists; lazy; reflexivity |].
  intros _. split; [lazy; reflexivity |]. split; [lazy; reflexivity |].
  split; [lazy; reflexivity |]. split; [lazy; reflexivity |].
  eexists _, _, _, _, _, _. split; lazy; reflexivity.
Qed.

(** On the stand-in libraries every score is printed. *)
Lemma every_score_is_printed_witness :
  completed (demo_execution false).2 /\
  printed_scores (demo_execution false).2 = score_results (demo_execution false).2.
Proof.
  split; [exact demo_execution_completed |].
  apply (proj2 (every_score_is_printed (demo_lib false)
    [[1; 2]; [3; 4]] [1; -1] [[5; 6]] [-1] 1%Q 0%nat)
    demo_execution_completed).
Defined.

(** ** Lists and index arrays *)
Lemma take_rows_total {A} `{Inhabited A} (a : list A) idx rows :
  take_rows a idx = Returned rows ->
  rows = (fun i => a !!! i) <$> idx /\ Forall (fun i => (i < length a)%nat) idx.
Proof.
  intros Hr. apply take_rows_returned in Hr.
  induction Hr as [| i r idx rows Hi _ [-> IH]]; [done |].
  split.
  - cbn. f_equal. symmetry. by apply list_lookup_total_correct.
  - constructor; [by eapply lookup_lt_Some | done].
Qed.

Lemma take_rows_raises {A} (a : list A) idx e :
  take_rows a idx = Raised e -> e = "IndexError".
Proof. unfold take_rows. destruct (mapM _ idx); [done | by intros [= <-]]. Qed.

Lemma zip_fmap_same {A B C} (f : A -> B) (g : A -> C) (l : list A) :
  zip (f <$> l) (g <$> l) = (fun x => (f x, g x)) <$> l.
Proof. induction l as [| x l IH]; [done |]. cbn. by rewrite IH. Qed.

Lemma lookup_total_seq {A} `{Inhabited A} (a : list A) :
  (fun i => a !!! i) <$> seq 0 (length a) = a.
Proof.
  apply list_eq. intros i. rewrite list_lookup_fmap.
  destruct (decide (i < length a)%nat) as [Hi | Hi].
  - rewrite lookup_seq_lt by done. cbn.
    by rewrite list_lookup_lookup_total_lt.
  - rewrite lookup_seq_ge by lia. cbn. symmetry. apply lookup_ge_None. lia.
Qed.

Lemma chunks_concat {A} (c : nat) (l : list (list A)) :
  Forall (fun r => length r = c) l -> chunks c (length l) (concat l) = l.
Proof.
  induction 1 as [| r l Hr _ IH]; [done |].
  cbn. rewrite take_app_length' by done. rewrite drop_app_length' by done.
  by rewrite IH.
Qed.

Lemma concat_concat {A} (X : list (list (list A))) :
  concat (concat X) = concat ((fun img => concat img) <$> X).
Proof.
  induction X as [| img X IH]; [done |].
  cbn. by rewrite concat_app, IH.
Qed.

Lemma image_size (img : image) :
  length img = 28%nat -> Forall (fun row => length row = 28%nat) img ->
  length (concat img) = 784%nat.
Proof.
  intros Hrows Hcols.
  assert (H : length (concat img) = (28 * length img)%nat).
  { clear Hrows. induction Hcols as [| row img Hrow _ IH]; [done |].
    cbn [concat]. rewrite length_app, Hrow, IH. cbn [length]. lia. }
  rewrite H, Hrows. done.
Qed.

Lemma take_rows_returns_iff {A} `{Inhabited A} (a : list A) idx :
  (exists rows, take_rows a idx = Returned rows) <->
  Forall (fun i => (i < length a)%nat) idx.
Proof.
  split.
  - intros [rows Hr]. by apply take_rows_total in Hr as [_ Hr].
  - apply take_rows_in_range.
Qed.

(** ** Cell 21: the split *)

Section CancerSplit.
Context {rng feature : Type}.
Variable shuffle : list nat -> rng -> list nat * rng.
Hypothesis shuffle_permutes : permutes shuffle.

Lemma cancer_cell_unfold (wisc : bunch feature) (g : rng) d g' :
  cancer_cell shuffle wisc g = Returned (d, g') ->
  let idx := (shuffle (seq 0 (length (target wisc))) g).1 in
  let k := Z.to_nat (2 * len idx / 3) in
  X_train d = (fun i => data wisc !!! i) <$> take k idx /\
  X_test d = (fun i => data wisc !!! i) <$> drop k idx /\
  y_train d = (fun i => target_label (target wisc !!! i)) <$> take k idx /\
  y_test d = (fun i => target_label (target wisc !!! i)) <$> drop k idx /\
  Forall (fun i => (i < length (data wisc))%nat) idx.
Proof.
  unfold cancer_cell. destruct (shuffle _ g) as [idx g1]. cbn [fst].
  assert (Hk : 0 <= 2 * len idx / 3) by (unfold len; apply Z.div_pos; lia).
  assert (Hto : forall A (l : list A),
    slice_to (2 * len idx / 3) l = take (Z.to_nat (2 * len idx / 3)) l).
  { intros A l. unfold slice_to. by rewrite (proj2 (Z.ltb_ge _ _) Hk). }
  assert (Hfrom : forall A (l : list A),
    slice_from (2 * len idx / 3) l = drop (Z.to_nat (2 * len idx / 3)) l).
  { intros A l. unfold slice_from. by rewrite (proj2 (Z.ltb_ge _ _) Hk). }
  rewrite !Hto, !Hfrom.
  destruct (take_rows (data wisc) (take _ _)) as [X1 | e] eqn:EX1; [| done].
  destruct (take_rows (data wisc) (drop _ _)) as [X2 | e] eqn:EX2; [| done].
  destruct (take_rows (target wisc) (take _ _)) as [y1 | e] eqn:Ey1; [| done].
  destruct (take_rows (target wisc) (drop _ _)) as [y2 | e] eqn:Ey2; [| done].
  cbn. intros [= <- <-]. cbn.
  apply take_rows_total in EX1 as [-> R1], EX2 as [-> R2].
  apply take_rows_total in Ey1 as [-> _], Ey2 as [-> _].
  rewrite <- !list_fmap_compose. repeat split; try done.
  rewrite <- (take_drop (Z.to_nat (2 * len idx / 3)) idx).
  by apply Forall_app.
Qed.

Lemma lookup_total_seq_take {A} `{Inhabited A} (a : list A) (n : nat) :
  (n <= length a)%nat -> (fun i => a !!! i) <$> seq 0 n = take n a.
Proof.
  intros Hn. rewrite <- (lookup_total_seq (take n a)).
  rewrite length_take, Nat.min_l by done.
  apply list_fmap_ext. intros i j Hj.
  apply lookup_seq in Hj as [-> Hj]. cbn.
  by rewrite !list_lookup_total_alt, lookup_take_lt.
Qed.

Lemma zip_take_r {A B} (l : list A) (k : list B) :
  zip (take (length k) l) k = zip l k.
Proof.
  revert l. induction k as [| y k IH]; intros [| x l]; cbn; try done.
  by rewrite IH.
Qed.

Lemma cancer_cell_split_indices (wisc : bunch feature) (g : rng) :
  let idx := (shuffle (seq 0 (length (target wisc))) g).1 in
  length idx = length (target wisc) /\
  0 <= 2 * len idx / 3 <= len idx.
Proof.
  intros idx. subst idx.
  pose proof (shuffle_permutes (seq 0 (length (target wisc))) g) as P.
  apply Permutation_length in P. rewrite length_seq in P.
  split; [done |]. unfold len. split; [apply Z.div_pos; lia |].
  apply Z.div_le_upper_bound; lia.
Qed.

(** X5. When the shuffle permutes, the split of cell 21 is a partition
    of the samples that keeps every row with its label: the training
    pairs followed by the test pairs are, up to their order, the rows of
    the data paired with [2 * target - 1]. *)
Theorem cancer_split_is_a_partition (wisc : bunch feature) (g : rng) d g' :
  cancer_cell shuffle wisc g = Returned (d, g') ->
  zip (X_train d) (y_train d) ++ zip (X_test d) (y_test d)
    ≡ₚ zip (data wisc) (target_label <$> target wisc).
Proof.
  intros Hr. destruct (cancer_cell_unfold wisc g d g' Hr)
    as (-> & -> & -> & -> & Hrange).
  pose proof (shuffle_permutes (seq 0 (length (target wisc))) g) as P.
  set (idx := (shuffle (seq 0 (length (target wisc))) g).1) in *.
  rewrite !zip_fmap_same, <- fmap_app, take_drop, P.
  rewrite P in Hrange.
  assert (Hn : (length (target wisc) <= length (data wisc))%nat).
  { destruct (length (target wisc)) as [| n] eqn:En; [lia |].
    pose proof (proj1 (Forall_seq _ 0%nat _) Hrange n) as Hb.
    specialize (Hb ltac:(lia)). cbn in Hb. lia. }
  rewrite <- (zip_fmap_same (fun i => data wisc !!! i)
    (fun i => target_label (target wisc !!! i))).
  rewrite (lookup_total_seq_take (data wisc)) by done.
  assert ((fun i => target_label (target wisc !!! i))
            <$> seq 0 (length (target wisc))
          = target_label <$> target wisc) as ->.
  { change ((target_label ∘ (fun i => target wisc !!! i))
              <$> seq 0 (length (target wisc)) = target_label <$> target wisc).
    by rewrite list_fmap_compose, lookup_total_seq. }
  rewrite <- (length_fmap target_label (target wisc)).
  by rewrite zip_take_r.
Qed.

(** X6. When the shuffle permutes, cell 21 trains on [2 * n // 3] of the
    [n] samples and tests on the others.  With one sample or none there
    is nothing to train on; with one sample or more there is something
    to test on. *)
Theorem cancer_split_sizes_two_thirds (wisc : bunch feature) (g : rng) d g' :
  cancer_cell shuffle wisc g = Returned (d, g') ->
  let n := len (target wisc) in
  len (X_train d) = 2 * n / 3 /\
  len (X_test d) = n - 2 * n / 3 /\
  (n <= 1 -> X_train d = []) /\
  (1 <= n -> X_test d <> []).
Proof.
  intros Hr n. subst n. destruct (cancer_cell_unfold wisc g d g' Hr)
    as (HX1 & HX2 & _).
  destruct (cancer_cell_split_indices wisc g) as [Hlen Hk].
  set (idx := (shuffle (seq 0 (length (target wisc))) g).1) in *.
  assert (L1 : len (X_train d) = 2 * len (target wisc) / 3).
  { rewrite HX1. unfold len in *. rewrite length_fmap, length_take, <- Hlen. lia. }
  assert (L2 : len (X_test d) = len (target wisc) - 2 * len (target wisc) / 3).
  { rewrite HX2. unfold len in *. rewrite length_fmap, length_drop, <- Hlen. lia. }
  split; [done |]. split; [done |]. split.
  - intros Hn. apply nil_length_inv. unfold len in *.
    assert (2 * Z.of_nat (length (target wisc)) / 3 = 0)
      by (apply Z.div_small; lia).
    lia.
  - intros Hn HX. rewrite HX in L2. unfold len in *. cbn in L2.
    assert (2 * Z.of_nat (length (target wisc)) / 3
            < Z.of_nat (length (target wisc)))
      by (apply Z.div_lt_upper_bound; lia).
    lia.
Qed.

(** X7. When the shuffle permutes, cell 21 completes if the data has a
    row for every target, and raises an [IndexError] if it has fewer
    rows than targets. *)
Theorem cancer_cell_needs_a_row_per_target (wisc : bunch feature) (g : rng) :
  ((length (target wisc) <= length (data wisc))%nat ->
     exists r, cancer_cell shuffle wisc g = Returned r) /\
  ((length (data wisc) < length (target wisc))%nat ->
     cancer_cell shuffle wisc g = Raised "IndexError").
Proof.
  split.
  - intros Hn. unfold cancer_cell.
    pose proof (shuffle_permutes (seq 0 (length (target wisc))) g) as P.
    destruct (shuffle _ g) as [idx g1]. cbn in P.
    assert (R : Forall (fun i => (i < length (target wisc))%nat) idx).
    { rewrite P. apply Forall_seq. lia. }
    assert (R' : Forall (fun i => (i < length (data wisc))%nat) idx).
    { eapply Forall_impl; [exact R |]. intros i Hi. cbn in Hi. lia. }
    destruct (take_rows_in_range (data wisc) (slice_to (2 * len idx / 3) idx))
      as [X1 ->]; [by apply Forall_take |].
    destruct (take_rows_in_range (data wisc) (slice_from (2 * len idx / 3) idx))
      as [X2 ->]; [by apply Forall_drop |].
    destruct (take_rows_in_range (target wisc) (slice_to (2 * len idx / 3) idx))
      as [y1 ->]; [by apply Forall_take |].
    destruct (take_rows_in_range (target wisc) (slice_from (2 * len idx / 3) idx))
      as [y2 ->]; [by apply Forall_drop |].
    cbn. by eexists.
  - intros Hn. destruct (cancer_cell shuffle wisc g) as [[d g'] | e] eqn:Hr.
    + destruct (cancer_cell_unfold wisc g d g' Hr) as (_ & _ & _ & _ & Hrange).
      rewrite (shuffle_permutes _ g) in Hrange.
      pose proof (proj1 (Forall_seq _ 0%nat _) Hrange (length (data wisc)))
        as Hb.
      specialize (Hb ltac:(lia)). cbn in Hb. lia.
    + f_equal. revert Hr. unfold cancer_cell.
      destruct (shuffle _ g) as [idx g1].
      destruct (take_rows (data wisc) (slice_to _ _)) as [X1 | e1] eqn:E1;
        [| cbn; intros [= <-]; by eapply take_rows_raises].
      destruct (take_rows (data wisc) (slice_from _ _)) as [X2 | e2] eqn:E2;
        [| cbn; intros [= <-]; by eapply take_rows_raises].
      destruct (take_rows (target wisc) (slice_to _ _)) as [y1 | e3] eqn:E3;
        [| cbn; intros [= <-]; by eapply take_rows_raises].
      destruct (take_rows (target wisc) (slice_from _ _)) as [y2 | e4] eqn:E4;
        [| cbn; intros [= <-]; by eapply take_rows_raises].
      done.
Qed.

End CancerSplit.

(** Three samples, reversed: two to train on and one to test on. *)
Lemma cancer_split_is_a_partition_witness :
  permutes reversing /\
  cancer_cell reversing three_samples () =
    Returned (Dataset [[3]; [2]] [1; 1] [[1]] [-1], ()) /\
  [([3], 1); ([2], 1); ([1], -1)] ≡ₚ [([1], -1); ([2], 1); ([3], 1)].
Proof.
  split; [exact reversing_permutes |]. split; [reflexivity |].
  exact (cancer_split_is_a_partition reversing reversing_permutes
    three_samples () (Dataset [[3]; [2]] [1; 1] [[1]] [-1]) () eq_refl).
Defined.

Lemma cancer_split_sizes_two_thirds_witness :
  permutes reversing /\
  cancer_cell reversing three_samples () =
    Returned (Dataset [[3]; [2]] [1; 1] [[1]] [-1], ()) /\
  len [[3]; [2]] = 2 * 3 / 3 /\ len [[1]] = 3 - 2 * 3 / 3.
Proof.
  split; [exact reversing_permutes |]. split; [reflexivity |].
  destruct (cancer_split_sizes_two_thirds reversing reversing_permutes
    three_samples () (Dataset [[3]; [2]] [1; 1] [[1]] [-1]) () eq_refl)
    as (H1 & H2 & _).
  split; [exact H1 | exact H2].
Defined.

(** Three rows for three targets, and one row for two. *)
Lemma cancer_cell_needs_a_row_per_target_witness :
  permutes reversing /\
  (exists r, cancer_cell reversing three_samples () = Returned r) /\
  cancer_cell reversing (Bunch [[1]] [0; 1]) () = Raised "IndexError".
Proof.
  split; [exact reversing_permutes |]. split.
  - apply (proj1 (cancer_cell_needs_a_row_per_target reversing
      reversing_permutes three_samples ())). cbn. lia.
  - apply (proj2 (cancer_cell_needs_a_row_per_target reversing
      reversing_permutes (Bunch [[1]] [0; 1]) ())). cbn. lia.
Defined.

(** ** Cell 14: the selection *)

Lemma where_le_axis0_selects (x : list image) bound j :
  j ∈ where_le_axis0 x bound ->
  exists img, x !! j = Some img /\ Exists (fun p => p ≤ bound) (concat img).
Proof.
  unfold where_le_axis0. intros Hj.
  apply list_elem_of_In, in_concat in Hj as (l & Hl & Hjl).
  apply list_elem_of_In in Hl, Hjl.
  apply elem_of_lookup_imap_1 in Hl as (i & img & -> & Hi).
  apply elem_of_replicate in Hjl as [-> Hn].
  exists img. split; [done |].
  destruct (filter _ (concat img)) as [| p ps] eqn:Hf; [done |].
  assert (Hp : p ∈ filter (fun p => p ≤ bound) (concat img))
    by (rewrite Hf; left).
  apply list_elem_of_filter in Hp as [Hp Hin].
  apply Exists_exists. by exists p.
Qed.

Lemma mnist_shaped_lookup (x : list image) (idx : list nat) :
  mnist_shaped x -> Forall (fun i => (i < length x)%nat) idx ->
  Forall (fun row : list Z => length row = 784%nat)
    ((fun j => concat (x !!! j)) <$> idx).
Proof.
  intros Hx Hidx. apply Forall_fmap. eapply Forall_impl; [exact Hidx |].
  intros j Hj. cbn in *.
  apply (list_lookup_lookup_total_lt x) in Hj.
  eapply Forall_lookup_1 in Hj; [| exact Hx]. destruct Hj as [Hrows Hcols].
  by apply image_size.
Qed.

Lemma reshape_value (X : list image) rows cols M :
  reshape X rows cols = Returned M ->
  M = chunks (Z.to_nat cols) (Z.to_nat rows) (concat (concat X)) /\
  len (concat (concat X)) = rows * cols.
Proof. unfold reshape. case_decide; [| done]. by intros [= <-]. Qed.

Section MnistCell.
Context {rng : Type}.
Variable shuffle : list nat -> rng -> list nat * rng.

Lemma mnist_cell_unfold (x_train0 : list image) (y_train0 : list Z)
    (x_test0 : list image) (y_test0 : list Z) (g : rng) r :
  mnist_shaped x_train0 -> mnist_shaped x_test0 ->
  mnist_cell shuffle x_train0 y_train0 x_test0 y_test0 g = Returned r ->
  let idx := mnist_indices shuffle x_train0 x_test0 g in
  (len idx.1 = 15000 /\ len idx.2 = 15000) /\
  (Forall (fun j => (j < length x_train0)%nat /\ (j < length y_train0)%nat) idx.1 /\
   Forall (fun j => (j < length x_test0)%nat /\ (j < length y_test0)%nat) idx.2) /\
  X_train r.1.1 = (fun j => concat (x_train0 !!! j)) <$> idx.1 /\
  y_train r.1.1 = (fun j => digit_label (y_train0 !!! j)) <$> idx.1 /\
  X_test r.1.1 = (fun j => concat (x_test0 !!! j)) <$> idx.2 /\
  y_test r.1.1 = (fun j => digit_label (y_test0 !!! j)) <$> idx.2.
Proof.
  intros Htrain Htest. unfold mnist_cell, mnist_indices.
  destruct (shuffle _ g) as [idx_01 g1].
  destruct (shuffle _ g1) as [idx_02 g2]. cbn [fst snd].
  destruct (take_rows x_train0 _) as [X1 | e] eqn:EX1; [| done].
  destruct (take_rows x_test0 _) as [X2 | e] eqn:EX2; [| done].
  destruct (take_rows y_train0 _) as [y1 | e] eqn:Ey1; [| done].
  destruct (take_rows y_test0 _) as [y2 | e] eqn:Ey2; [| done].
  cbn. destruct (reshape X1 _ _) as [M1 | e] eqn:EM1; [| done].
  cbn. destruct (reshape X2 _ _) as [M2 | e] eqn:EM2; [| done].
  cbn. intros [= <-]. cbn.
  pose proof (take_rows_Forall _ _ _ _ Htrain EX1) as S1.
  pose proof (take_rows_Forall _ _ _ _ Htest EX2) as S2.
  apply take_rows_total in EX1 as [EX1 R1], EX2 as [EX2 R2].
  apply take_rows_total in Ey1 as [-> Q1], Ey2 as [-> Q2].
  apply reshape_value in EM1 as [-> Z1], EM2 as [-> Z2].
  rewrite mnist_shaped_size in Z1, Z2 by done.
  assert (L1 : len X1 = 15000) by lia.
  assert (L2 : len X2 = 15000) by lia.
  assert (N1 : len (slice_to 15000 idx_01) = 15000).
  { rewrite EX1 in L1. unfold len in *. by rewrite length_fmap in L1. }
  assert (N2 : len (slice_to 15000 idx_02) = 15000).
  { rewrite EX2 in L2. unfold len in *. by rewrite length_fmap in L2. }
  split; [by split |]. split.
  { split; apply Forall_and; by split. }
  rewrite <- !list_fmap_compose.
  rewrite !concat_concat.
  assert (C1 : chunks (Z.to_nat 784) (Z.to_nat 15000)
                 (concat ((fun img => concat img) <$> X1))
               = (fun img => concat img) <$> X1).
  { replace (Z.to_nat 15000) with (length ((fun img : image => concat img) <$> X1))
      by (rewrite length_fmap; unfold len in L1; lia).
    apply chunks_concat. rewrite EX1, <- list_fmap_compose.
    by apply mnist_shaped_lookup. }
  assert (C2 : chunks (Z.to_nat 784) (Z.to_nat 15000)
                 (concat ((fun img => concat img) <$> X2))
               = (fun img => concat img) <$> X2).
  { replace (Z.to_nat 15000) with (length ((fun img : image => concat img) <$> X2))
      by (rewrite length_fmap; unfold len in L2; lia).
    apply chunks_concat. rewrite EX2, <- list_fmap_compose.
    by apply mnist_shaped_lookup. }
  rewrite C1, C2, EX1, EX2, <- !list_fmap_compose. done.
Qed.

Hypothesis shuffle_permutes : permutes shuffle.

Lemma mnist_indices_selected (x_train0 x_test0 : list image) (g : rng) :
  let idx := mnist_indices shuffle x_train0 x_test0 g in
  (forall j, j ∈ idx.1 -> j ∈ where_le_axis0 x_train0 9) /\
  (forall j, j ∈ idx.2 -> j ∈ where_le_axis0 x_test0 9) /\
  length idx.1 = (Z.to_nat 15000 `min` length (where_le_axis0 x_train0 9))%nat /\
  length idx.2 = (Z.to_nat 15000 `min` length (where_le_axis0 x_test0 9))%nat.
Proof.
  unfold mnist_indices.
  pose proof (shuffle_permutes (where_le_axis0 x_train0 9) g) as P1.
  destruct (shuffle _ g) as [idx_01 g1].
  pose proof (shuffle_permutes (where_le_axis0 x_test0 9) g1) as P2.
  destruct (shuffle _ g1) as [idx_02 g2]. cbn [fst snd] in *.
  unfold slice_to. cbn [Z.ltb Z.compare].
  rewrite !length_take, P1, P2.
  repeat split; try done.
  - intros j Hj. rewrite <- P1.
    apply elem_of_take in Hj as (i & Hi & _). by eapply list_elem_of_lookup_2.
  - intros j Hj. rewrite <- P2.
    apply elem_of_take in Hj as (i & Hi & _). by eapply list_elem_of_lookup_2.
Qed.

(** X8. When cell 14 returns on images of 28 by 28 pixels, row [i] of
    the training matrix is the image selected in place [i], flattened,
    and label [i] is the label of the digit of that same image; likewise
    for the test matrix.  When the shuffle permutes, every image
    selected has a pixel that is at most 9: the selection reads the
    pixels, not the digits. *)
Theorem mnist_rows_keep_their_labels (x_train0 : list image) (y_train0 : list Z)
    (x_test0 : list image) (y_test0 : list Z) (g : rng) r :
  mnist_shaped x_train0 -> mnist_shaped x_test0 ->
  mnist_cell shuffle x_train0 y_train0 x_test0 y_test0 g = Returned r ->
  let idx := mnist_indices shuffle x_train0 x_test0 g in
  (len idx.1 = 15000 /\ len idx.2 = 15000) /\
  (X_train r.1.1 = (fun j => concat (x_train0 !!! j)) <$> idx.1 /\
   y_train r.1.1 = (fun j => digit_label (y_train0 !!! j)) <$> idx.1 /\
   X_test r.1.1 = (fun j => concat (x_test0 !!! j)) <$> idx.2 /\
   y_test r.1.1 = (fun j => digit_label (y_test0 !!! j)) <$> idx.2) /\
  Forall (fun j => exists img,
            x_train0 !! j = Some img /\ Exists (fun p => p ≤ 9) (concat img))
    idx.1 /\
  Forall (fun j => exists img,
            x_test0 !! j = Some img /\ Exists (fun p => p ≤ 9) (concat img))
    idx.2.
Proof.
  intros Htrain Htest Hr idx.
  destruct (mnist_cell_unfold x_train0 y_train0 x_test0 y_test0 g r
              Htrain Htest Hr) as (Hlen & _ & Hrows).
  destruct (mnist_indices_selected x_train0 x_test0 g) as (S1 & S2 & _).
  split; [exact Hlen |]. split; [exact Hrows |].
  split; apply Forall_forall; intros j Hj; apply where_le_axis0_selects; auto.
Qed.

(** X9. The index arrays of cell 14 hold an image once for each of its
    pixels that passes the test, so images can be selected more than
    once: when cell 14 returns on fewer than 15000 images, the matrix of
    15000 rows repeats a row. *)
Theorem mnist_small_set_repeats_images (x_train0 : list image) (y_train0 : list Z)
    (x_test0 : list image) (y_test0 : list Z) (g : rng) r :
  mnist_shaped x_train0 -> mnist_shaped x_test0 ->
  mnist_cell shuffle x_train0 y_train0 x_test0 y_test0 g = Returned r ->
  (len x_train0 < 15000 -> ~ NoDup (X_train r.1.1)) /\
  (len x_test0 < 15000 -> ~ NoDup (X_test r.1.1)).
Proof.
  intros Htrain Htest Hr.
  destruct (mnist_cell_unfold x_train0 y_train0 x_test0 y_test0 g r
              Htrain Htest Hr) as ([L1 L2] & [R1 R2] & -> & _ & -> & _).
  assert (pigeon : forall (idx : list nat) (n : nat),
    Forall (fun j => (j < n)%nat) idx -> NoDup idx -> (length idx <= n)%nat).
  { intros idx n Hidx Hnd.
    assert (Hs : idx ⊆+ seq 0 n).
    { apply NoDup_submseteq; [done |]. intros j Hj. apply elem_of_seq.
      eapply Forall_forall in Hidx; [| exact Hj]. cbn in Hidx. lia. }
    apply submseteq_length in Hs. by rewrite length_seq in Hs. }
  split; intros Hsmall Hnd; apply NoDup_fmap_1 in Hnd.
  - apply (pigeon _ (length x_train0)) in Hnd.
    + unfold len in *. lia.
    + eapply Forall_impl; [exact R1 |]. by intros j [? _].
  - apply (pigeon _ (length x_test0)) in Hnd.
    + unfold len in *. lia.
    + eapply Forall_impl; [exact R2 |]. by intros j [? _].
Qed.

(** X10. On images of 28 by 28 pixels, when the shuffle permutes and
    the training or the test images have fewer than 15000 pixels that
    are at most 9, cell 14 does not complete.  It raises an
    [IndexError] at the labels when a selected image has no label, and
    otherwise a [ValueError]: the slice is short and the reshape to
    15000 rows fails. *)
Theorem mnist_cell_needs_15000_indices (x_train0 : list image) (y_train0 : list Z)
    (x_test0 : list image) (y_test0 : list Z) (g : rng) :
  mnist_shaped x_train0 -> mnist_shaped x_test0 ->
  len (where_le_axis0 x_train0 9) < 15000 \/
  len (where_le_axis0 x_test0 9) < 15000 ->
  let idx := mnist_indices shuffle x_train0 x_test0 g in
  mnist_cell shuffle x_train0 y_train0 x_test0 y_test0 g =
    Raised (if decide (Forall (fun j => (j < length y_train0)%nat) idx.1 /\
                        Forall (fun j => (j < length y_test0)%nat) idx.2)
            then "ValueError" else "IndexError").
Proof.
  intros Htrain Htest Hfew.
  destruct (mnist_indices_selected x_train0 x_test0 g)
    as (S1 & S2 & N1 & N2).
  revert S1 S2 N1 N2. unfold mnist_cell, mnist_indices.
  destruct (shuffle _ g) as [idx_01 g1].
  destruct (shuffle _ g1) as [idx_02 g2]. cbn [fst snd].
  intros S1 S2 N1 N2.
  assert (R1 : Forall (fun i => (i < length x_train0)%nat) (slice_to 15000 idx_01)).
  { apply Forall_forall. intros j Hj.
    apply (proj1 (Forall_forall _ _) (where_le_axis0_in_range x_train0 9) j).
    by apply S1. }
  assert (R2 : Forall (fun i => (i < length x_test0)%nat) (slice_to 15000 idx_02)).
  { apply Forall_forall. intros j Hj.
    apply (proj1 (Forall_forall _ _) (where_le_axis0_in_range x_test0 9) j).
    by apply S2. }
  destruct (take_rows_in_range x_train0 _ R1) as [X1 EX1].
  destruct (take_rows_in_range x_test0 _ R2) as [X2 EX2].
  rewrite EX1, EX2. cbn [mbind outcome_bind].
  pose proof (take_rows_returns_iff y_train0 (slice_to 15000 idx_01)) as Q1.
  pose proof (take_rows_returns_iff y_test0 (slice_to 15000 idx_02)) as Q2.
  destruct (take_rows y_train0 _) as [y1 | e1] eqn:Ey1.
  2:{ apply take_rows_raises in Ey1 as ->.
      rewrite decide_False; [done |].
      intros [F1 _]. apply Q1 in F1 as [rows Hrows]. done. }
  destruct (take_rows y_test0 _) as [y2 | e2] eqn:Ey2.
  2:{ apply take_rows_raises in Ey2 as ->.
      rewrite decide_False; [done |].
      intros [_ F2]. apply Q2 in F2 as [rows Hrows]. done. }
  rewrite decide_True by (split; [apply Q1 | apply Q2]; by eexists).
  cbn.
  assert (Z1 : len (concat (concat X1)) = 784 * len (slice_to 15000 idx_01)).
  { rewrite mnist_shaped_size
      by (eapply take_rows_Forall; [exact Htrain | exact EX1]).
    apply take_rows_length in EX1. unfold len. lia. }
  assert (Z2 : len (concat (concat X2)) = 784 * len (slice_to 15000 idx_02)).
  { rewrite mnist_shaped_size
      by (eapply take_rows_Forall; [exact Htest | exact EX2]).
    apply take_rows_length in EX2. unfold len. lia. }
  unfold reshape.
  destruct (decide (len (concat (concat X1)) = 15000 * 784)) as [E1 | E1];
    [| done].
  cbn. rewrite decide_False; [done |].
  unfold len in *. lia.
Qed.

End MnistCell.

(** On twenty blank images, with the digits 7 to train on and 3 to test
    on. *)
Lemma mnist_rows_keep_their_labels_witness :
  permutes reversing /\ mnist_shaped blank_images /\
  exists r,
    mnist_cell reversing blank_images (replicate 20 7)
      blank_images (replicate 20 3) () = Returned r /\
    y_train r.1.1 =
      (fun j => digit_label (replicate 20 7 !!! j))
        <$> (mnist_indices reversing blank_images blank_images ()).1 /\
    y_test r.1.1 =
      (fun j => digit_label (replicate 20 3 !!! j))
        <$> (mnist_indices reversing blank_images blank_images ()).2.
Proof.
  split; [exact reversing_permutes |].
  split; [exact blank_images_shaped |].
  destruct (mnist_cell_returns reversing reversing_permutes
    blank_images (replicate 20 7) blank_images (replicate 20 3) ()
    blank_images_shaped blank_images_shaped) as [r Hr];
    [done | done | by vm_compute | by vm_compute |].
  exists r. split; [exact Hr |].
  destruct (mnist_rows_keep_their_labels reversing reversing_permutes
    blank_images (replicate 20 7) blank_images (replicate 20 3) () r
    blank_images_shaped blank_images_shaped Hr)
    as (_ & (_ & H1 & _ & H2) & _).
  split; [exact H1 | exact H2].
Defined.

Lemma mnist_small_set_repeats_images_witness :
  mnist_shaped blank_images /\
  exists r,
    mnist_cell reversing blank_images (replicate 20 7)
      blank_images (replicate 20 3) () = Returned r /\
    ~ NoDup (X_train r.1.1) /\ ~ NoDup (X_test r.1.1).
Proof.
  split; [exact blank_images_shaped |].
  destruct (mnist_cell_returns reversing reversing_permutes
    blank_images (replicate 20 7) blank_images (replicate 20 3) ()
    blank_images_shaped blank_images_shaped) as [r Hr];
    [done | done | by vm_compute | by vm_compute |].
  exists r. split; [exact Hr |].
  destruct (mnist_small_set_repeats_images reversing
    blank_images (replicate 20 7) blank_images (replicate 20 3) () r
    blank_images_shaped blank_images_shaped Hr) as [H1 H2].
  split; [apply H1 | apply H2]; by vm_compute.
Defined.

(** One blank image gives 784 indices; with its label the reshape
    fails, without a test label the selection of the labels. *)
Lemma mnist_cell_needs_15000_indices_witness :
  permutes reversing /\ mnist_shaped (take 1 blank_images) /\
  len (where_le_axis0 (take 1 blank_images) 9) = 784 /\
  mnist_cell reversing (take 1 blank_images) [7] (take 1 blank_images) [3] ()
    = Raised "ValueError" /\
  mnist_cell reversing (take 1 blank_images) [7] (take 1 blank_images) [] ()
    = Raised "IndexError".
Proof.
  split; [exact reversing_permutes |].
  assert (Hs : mnist_shaped (take 1 blank_images))
    by apply Forall_take, blank_images_shaped.
  split; [exact Hs |]. split; [by vm_compute |].
  split.
  - rewrite (mnist_cell_needs_15000_indices reversing reversing_permutes
      (take 1 blank_images) [7] (take 1 blank_images) [3] () Hs Hs)
      by (left; by vm_compute).
    rewrite decide_True; [done |].
    split; apply (bool_decide_unpack _); by vm_compute.
  - rewrite (mnist_cell_needs_15000_indices reversing reversing_permutes
      (take 1 blank_images) [7] (take 1 blank_images) [] () Hs Hs)
      by (left; by vm_compute).
    rewrite decide_False; [done |].
    intros [_ H]. revert H. apply (bool_decide_eq_false_1 _). by vm_compute.
Defined.

(** ** Cell 16: the figure *)

Lemma item_nat {A} (a : list A) (i : nat) :
  item a (Z.of_nat i) =
    match a !! i with
    | Some x => Returned x
    | None => Raised "IndexError"
    end.
Proof.
  unfold item.
  rewrite (proj2 (Z.ltb_ge (Z.of_nat i) 0)) by lia.
  by rewrite (proj2 (Z.ltb_ge (Z.of_nat i) 0)), Nat2Z.id by lia.
Qed.

(** Flattening an image of 28 by 28 pixels and reshaping the row gives
    the image back. *)
Lemma reshape_row_concat (img : image) :
  length img = 28%nat -> Forall (fun row => length row = 28%nat) img ->
  reshape_row (concat img) 28 28 = Returned img.
Proof.
  intros Hrows Hcols. unfold reshape_row.
  rewrite decide_True by (unfold len; rewrite (image_size img) by done; lia).
  f_equal. replace (Z.to_nat 28) with (length img) at 2 by lia.
  apply chunks_concat.
  eapply Forall_impl; [exact Hcols |]. intros row Hrow. cbn in *. lia.
Qed.

Lemma for_each_app {A S} (body : A -> S -> outcome unit * S) l1 l2 (s : S) :
  for_each body (l1 ++ l2) s =
    match for_each body l1 s with
    | (Returned _, s') => for_each body l2 s'
    | (Raised e, s') => (Raised e, s')
    end.
Proof.
  revert s. induction l1 as [| i l1 IH]; intros s; cbn; [done |].
  destruct (body i s) as [[[] | e] s']; [apply IH | done].
Qed.

Lemma draw_digits (d : dataset Z) (ys : list Z) (imgs : list image) :
  forall (s : nat) (fig : list plt_call),
    length ys = length imgs ->
    (forall k y img, ys !! k = Some y -> imgs !! k = Some img ->
       y_train d !! (s + k)%nat = Some y /\
       exists row, X_train d !! (s + k)%nat = Some row /\
                   reshape_row row 28 28 = Returned img) ->
    for_each (draw_digit d) (Z.of_nat <$> seq s (length ys)) fig =
      (Returned tt,
       fig ++ concat (imap (fun k yi => drawn (s + k) yi.1 yi.2) (zip ys imgs))).
Proof.
  revert imgs. induction ys as [| y ys IH]; intros [| img imgs] s fig Hlen H;
    try done.
  - cbn. by rewrite app_nil_r.
  - cbn [length seq fmap list_fmap for_each].
    destruct (H 0%nat y img eq_refl eq_refl) as (Hy & row & Hrow & Himg).
    rewrite Nat.add_0_r in Hy, Hrow.
    unfold labels, matrix in Hy, Hrow.
    unfold draw_digit at 1. rewrite !item_nat, Hy, Hrow. cbn. rewrite Himg.
    rewrite (IH imgs (S s)).
    + f_equal. rewrite <- !app_assoc. f_equal.
      cbn [zip zip_with imap concat app]. unfold drawn at 2.
      rewrite Nat.add_0_r. cbn [fst snd app]. do 4 f_equal.
      apply imap_ext. intros k [y' img'] _. cbn [compose fst snd].
      by replace (S s + k)%nat with (s + S k)%nat by lia.
    + cbn in Hlen. lia.
    + intros k y' img' Hk1 Hk2.
      replace (S s + k)%nat with (s + S k)%nat by lia. by apply H.
Qed.

Lemma reshape_row_returned row img :
  reshape_row row 28 28 = Returned img <->
  len row = 784 /\ img = chunks 28 28 row.
Proof.
  unfold reshape_row. case_decide as Hlen.
  - split; [intros [= <-]; split; [lia | done] | by intros [_ ->]].
  - split; [done | intros [? _]; lia].
Qed.

Lemma digit_label_gray (y : Z) :
  (if decide (digit_label y = 1) then "gray" else "gray_r") =
  (if decide (4 < y) then "gray" else "gray_r").
Proof.
  unfold digit_label. destruct (Z.ltb_spec 4 y) as [Hy | Hy]; cbn [Z.b2z].
  - change (int64 (2 * 1 - 1)) with 1. by rewrite (decide_True (P := 4 < y)).
  - change (int64 (2 * 0 - 1)) with (-1).
    by rewrite (decide_False (P := 4 < y)) by lia.
Qed.

(** When the loop of cell 16 gets through [n] samples from [s] on. *)
Lemma draw_digits_return (d : dataset Z) (n : nat) :
  forall (s : nat) (fig : list plt_call),
    (for_each (draw_digit d) (Z.of_nat <$> seq s n) fig).1 = Returned tt <->
    forall k, (k < n)%nat ->
      exists y row, y_train d !! (s + k)%nat = Some y /\
                    X_train d !! (s + k)%nat = Some row /\ len row = 784.
Proof.
  induction n as [| n IH]; intros s fig.
  - cbn. split; [intros _ k Hk; lia | done].
  - cbn [seq fmap list_fmap for_each]. unfold draw_digit at 1.
    rewrite !item_nat.
    destruct (@lookup nat Z (list Z) _ s (y_train d)) as [y |] eqn:Hy.
    2:{ cbn. split; [done |]. intros H.
        destruct (H 0%nat) as (y' & row' & Hy' & _); [lia |].
        rewrite Nat.add_0_r in Hy'. unfold labels in *. congruence. }
    destruct (@lookup nat (list Z) (list (list Z)) _ s (X_train d))
      as [row |] eqn:Hrow.
    2:{ cbn. split; [done |]. intros H.
        destruct (H 0%nat) as (y' & row' & _ & Hrow' & _); [lia |].
        rewrite Nat.add_0_r in Hrow'. unfold matrix in *. congruence. }
    cbn. destruct (reshape_row row 28 28) as [img | e] eqn:Himg.
    + apply reshape_row_returned in Himg as [Hlen _]. rewrite IH. split.
      * intros H [| k] Hk.
        -- rewrite Nat.add_0_r. by exists y, row.
        -- replace (s + S k)%nat with (S s + k)%nat by lia. apply H. lia.
      * intros H k Hk. replace (S s + k)%nat with (s + S k)%nat by lia.
        apply H. lia.
    + cbn. split; [done |]. intros H.
      destruct (H 0%nat) as (y' & row' & _ & Hrow' & Hlen); [lia |].
      rewrite Nat.add_0_r in Hrow'. unfold matrix in *.
      assert (row' = row) as -> by congruence.
      unfold reshape_row in Himg. by rewrite decide_True in Himg by lia.
Qed.

(** X11. After cell 14 returned on images of 28 by 28 pixels, cell 16
    completes and shows the first sixteen of the selected training
    images as they were before flattening, each in its place of the
    four by four grid, in gray when its digit is above 4 and in
    reversed gray otherwise. *)
Theorem cell16_shows_the_selected_images {rng}
    (shuffle : list nat -> rng -> list nat * rng)
    (x_train0 : list image) (y_train0 : list Z)
    (x_test0 : list image) (y_test0 : list Z) (g : rng) r :
  mnist_shaped x_train0 -> mnist_shaped x_test0 ->
  mnist_cell shuffle x_train0 y_train0 x_test0 y_test0 g = Returned r ->
  let shown := take 16 (mnist_indices shuffle x_train0 x_test0 g).1 in
  length shown = 16%nat /\
  cell16 r.1.1 =
    (Returned tt,
     concat (imap (fun k j =>
       [subplot 4 4 (Z.of_nat k + 1);
        imshow (x_train0 !!! j)
          (if decide (4 < y_train0 !!! j) then "gray" else "gray_r");
        axis "off"]) shown)).
Proof.
  intros Htrain Htest Hr shown.
  destruct (mnist_cell_unfold shuffle x_train0 y_train0 x_test0 y_test0 g r
              Htrain Htest Hr) as ([L1 _] & [R1 _] & HX & Hy & _).
  assert (Hshown : length shown = 16%nat).
  { unfold shown. rewrite length_take. unfold len in L1. lia. }
  split; [exact Hshown |].
  pose proof (draw_digits r.1.1
    ((fun j => digit_label (y_train0 !!! j)) <$> shown)
    ((fun j => x_train0 !!! j) <$> shown) 0 []) as Hloop.
  rewrite !length_fmap, Hshown in Hloop.
  unfold cell16, range. rewrite Hloop; clear Hloop; [| done |].
  - f_equal. cbn [app]. f_equal. rewrite zip_fmap_same, imap_fmap.
    apply imap_ext. intros k j _. cbn [compose fst snd]. unfold drawn.
    by rewrite digit_label_gray.
  - intros k y img Hk1 Hk2. cbn [Nat.add].
    apply list_lookup_fmap_Some in Hk1 as (j & -> & Hj).
    apply list_lookup_fmap_Some in Hk2 as (j' & -> & Hj').
    assert (j' = j) as -> by congruence.
    unfold shown in Hj. apply lookup_take_Some in Hj as [Hj Hk].
    split.
    + unfold labels. rewrite Hy. by rewrite list_lookup_fmap, Hj.
    + exists (concat (x_train0 !!! j)). split.
      * unfold matrix. rewrite HX. by rewrite list_lookup_fmap, Hj.
      * assert (Hin : (j < length x_train0)%nat).
        { eapply Forall_forall in R1; [| by eapply list_elem_of_lookup_2].
          by destruct R1. }
        apply lookup_lt_is_Some in Hin as [img Himg].
        unfold image in *.
        rewrite (list_lookup_total_correct _ _ _ Himg).
        eapply Forall_forall in Htrain; [| by eapply list_elem_of_lookup_2].
        destruct Htrain as [Hrows Hcols]. by apply reshape_row_concat.
Qed.

(** On twenty blank images cell 16 completes after cell 14. *)
Lemma cell16_shows_the_selected_images_witness :
  mnist_shaped blank_images /\
  exists r,
    mnist_cell reversing blank_images (replicate 20 7)
      blank_images (replicate 20 3) () = Returned r /\
    (cell16 r.1.1).1 = Returned tt.
Proof.
  split; [exact blank_images_shaped |].
  destruct (mnist_cell_returns reversing reversing_permutes
    blank_images (replicate 20 7) blank_images (replicate 20 3) ()
    blank_images_shaped blank_images_shaped) as [r Hr];
    [done | done | by vm_compute | by vm_compute |].
  exists r. split; [exact Hr |].
  destruct (cell16_shows_the_selected_images reversing
    blank_images (replicate 20 7) blank_images (replicate 20 3) () r
    blank_images_shaped blank_images_shaped Hr) as [_ ->].
  reflexivity.
Defined.

(** X12. Cell 16 completes exactly when there are sixteen labels and
    sixteen rows to show and each of the first sixteen rows has 784
    entries. *)
Theorem cell16_completes_iff (d : dataset Z) :
  (cell16 d).1 = Returned tt <->
  (16 <= length (y_train d))%nat /\ (16 <= length (X_train d))%nat /\
  Forall (fun row => len row = 784) (take 16 (X_train d)).
Proof.
  unfold cell16, range. rewrite draw_digits_return. split.
  - intros H. split; [| split].
    + destruct (H 15%nat) as (y & row & Hy & _); [lia |].
      apply lookup_lt_Some in Hy. cbn in Hy. lia.
    + destruct (H 15%nat) as (y & row & _ & Hrow & _); [lia |].
      apply lookup_lt_Some in Hrow. cbn in Hrow. lia.
    + apply Forall_lookup. intros k row Hk.
      apply lookup_take_Some in Hk as [Hk Hlt].
      destruct (H k) as (y & row' & _ & Hrow & Hlen); [lia |].
      cbn in Hrow. unfold matrix in *. congruence.
  - intros (Hy & HX & Hrows) k Hk. cbn [Nat.add].
    destruct (lookup_lt_is_Some_2 (y_train d) k) as [y Hyk]; [lia |].
    destruct (lookup_lt_is_Some_2 (X_train d) k) as [row Hrow]; [lia |].
    exists y, row. split; [done |]. split; [done |].
    eapply Forall_lookup in Hrows; [exact Hrows |].
    by apply lookup_take_Some.
Qed.

(** X13. With fewer than sixteen samples, each of 784 entries, the loop
    of cell 16 draws every sample there is and then raises an
    [IndexError] on the label it does not find; what was drawn
    stays on the figure. *)
Theorem cell16_runs_out_of_samples (d : dataset Z) :
  (length (y_train d) < 16)%nat ->
  (length (y_train d) <= length (X_train d))%nat ->
  Forall (fun row => len row = 784) (X_train d) ->
  cell16 d =
    (Raised "IndexError",
     concat (imap (fun k yr => drawn k yr.1 (chunks 28 28 yr.2))
               (zip (y_train d) (X_train d)))).
Proof.
  intros Hshort Hrows Hshape. unfold cell16, range.
  set (n := length (y_train d)).
  assert (Hsplit : seq 0 16 = seq 0 n ++ seq n (S (15 - n))).
  { change (seq n) with (seq (0 + n)). rewrite <- seq_app. f_equal. lia. }
  rewrite Hsplit, fmap_app, for_each_app.
  pose proof (draw_digits d (y_train d)
    ((fun row => chunks 28 28 row) <$> take n (X_train d)) 0 []) as Hloop.
  fold n in Hloop. rewrite Hloop; clear Hloop.
  - set (fig := [] ++ _).
    cbn [seq fmap list_fmap for_each Nat.add]. unfold draw_digit at 1.
    rewrite item_nat. unfold labels.
    rewrite (lookup_ge_None_2 (y_train d) n) by (unfold n, labels; lia).
    subst fig. f_equal. cbn [app]. f_equal.
    rewrite zip_with_fmap_r, zip_with_zip, imap_fmap.
    rewrite (zip_with_take_r' _ n) by (unfold n, labels; lia).
    apply imap_ext. by intros k [y row] _.
  - rewrite length_fmap, length_take. unfold n, labels, matrix in *. lia.
  - intros k y img Hy Himg. cbn [Nat.add]. split; [done |].
    apply list_lookup_fmap_Some in Himg as (row & -> & Hrow).
    apply lookup_take_Some in Hrow as [Hrow _].
    exists row. split; [done |]. apply reshape_row_returned. split; [| done].
    eapply Forall_lookup in Hshape; [exact Hshape | exact Hrow].
Qed.

(** One sample is drawn, in gray, before the loop fails. *)
Lemma cell16_runs_out_of_samples_witness :
  cell16 one_sample =
    (Raised "IndexError",
     [subplot 4 4 1; imshow (replicate 28 (replicate 28 0)) "gray"; axis "off"]).
Proof.
  apply (cell16_runs_out_of_samples one_sample).
  - cbn. lia.
  - cbn. lia.
  - repeat constructor.
Defined.
